(** * Extra-P drivers: the batch driver (extrapcmd.py) and the interactive
    driver (extrapgui.py), embedded as effect traces over an error monad.

    Both [main] functions are glue code: they call readers, the model
    generator, Qt and the logging module in a fixed order.  The embedding
    keeps that order: every call to a collaborator is an [event] appended to
    a trace, every Python exception (including [SystemExit] raised by
    [sys.exit]) is a [Raise] outcome, and Python objects whose attributes
    are assigned by [setattr] are attribute dictionaries. *)

From Stdlib Require Import ZArith String Ascii List Bool.
From stdpp Require Import base option list strings gmap fin_maps.

Local Open Scope string_scope.
Local Open Scope Z_scope.
Local Open Scope list_scope.
Local Open Scope stdpp_scope.

(* ===================================================================== *)
(** ** Python values and objects                                          *)
(* ===================================================================== *)

(** Values an option can take once the command line has been parsed. *)
Inductive atom : Type :=
  | ANone
  | ABool (b : bool)
  | AInt (z : Z)
  | AFloat (mantissa : Z) (exponent : Z)
  | AStr (s : string).

(** An instance of a single-parameter modeler class: its class and its
    instance dictionary. *)
Record instance : Type := Instance {
  inst_class : string;
  inst_attrs : gmap string atom
}.

(** Values held by the option dictionary and by the attributes of the
    top-level modeler. *)
Inductive value : Type :=
  | VAtom (a : atom)
  | VDict (d : gmap string atom)
  | VInst (i : instance).

(** The modeler owned by the model generator.  [mod_multi] is
    [isinstance(modeler, MultiParameterModeler)]. *)
Record modeler : Type := Modeler {
  mod_class : string;
  mod_multi : bool;
  mod_attrs : gmap string value
}.

(** [value is not None] *)
Definition atom_is_not_None (a : atom) : bool :=
  match a with ANone => false | _ => true end.

Definition is_not_None (v : value) : bool :=
  match v with VAtom a => atom_is_not_None a | _ => true end.

(* ===================================================================== *)
(** ** Exceptions, events and the trace monad                             *)
(* ===================================================================== *)

Inductive exn : Type :=
  | KeyError (key : string)
  | AttributeError (name : string)
  | TypeError
  | SystemExit (code : Z)
  | OtherError (what : string).

Inductive result (A : Type) : Type :=
  | Ok (a : A)
  | Raise (e : exn).
Arguments Ok {A} a.
Arguments Raise {A} e.

Inductive reader : Type :=
  | CubeReader | TextReader | TalpasReader | JsonReader | Extrap3Reader.

(** A computation over events of type [E]: the events it emitted, in
    program order, and how it ended. *)
Definition M (E A : Type) : Type := list E * result A.

Definition ret {E A} (a : A) : M E A := ([], Ok a).

Definition bind {E A B} (c : M E A) (k : A → M E B) : M E B :=
  match c with
  | (tr, Ok a) => let '(tr', r) := k a in (tr ++ tr', r)
  | (tr, Raise e) => (tr, Raise e)
  end.

Definition emit {E} (e : E) : M E unit := ([e], Ok tt).
Definition raise {E A} (e : exn) : M E A := ([], Raise e).
Definition lift {E A} (r : result A) : M E A := ([], r).

(** [sys.exit(code)] and the builtin [exit(code)] *)
Definition sys_exit {E A} (code : Z) : M E A := raise (SystemExit code).

Declare Scope drv_scope.
Delimit Scope drv_scope with drv.
Notation "'let!' x ':=' c 'in' k" := (bind c (λ x, k))
  (at level 10, x name, c at level 100, k at level 200) : drv_scope.
Notation "c '>>' k" := (bind c (λ _, k))
  (at level 90, right associativity) : drv_scope.
Local Open Scope drv_scope.

Definition trace {E A} (c : M E A) : list E := fst c.
Definition outcome {E A} (c : M E A) : result A := snd c.

(** [str.upper] on ASCII letters. *)
Definition ascii_upper (c : ascii) : ascii :=
  let n := nat_of_ascii c in
  if (Nat.leb 97 n && Nat.leb n 122)%bool then ascii_of_nat (n - 32) else c.

Fixpoint str_upper (s : string) : string :=
  match s with
  | EmptyString => EmptyString
  | String c s' => String (ascii_upper c) (str_upper s')
  end.

(* ===================================================================== *)
(** ** The batch driver: extrapcmd.py                                     *)
(* ===================================================================== *)

Module extrapcmd.

(** The namespace returned by [parser.parse_args]: one field per [dest]. *)
Record arguments : Type := Arguments {
  log_level : string;
  cube : bool;
  text : bool;
  talpas : bool;
  json : bool;
  extrap3 : bool;
  modeler_name : string;
  modeler_options : gmap string value;
  scaling_type : string;
  median : bool;
  out : option string;
  print_type : string;
  path : option string
}.

(** Calls made by the batch driver, in program order.  [EvRead r p s] is a
    call of reader [r] on path [p]; [s] is the scaling argument when the
    call passes one. *)
Inductive event : Type :=
  | EvBasicConfig (debug_format : bool) (level : string)
  | EvPbarOpen (desc : string)
  | EvPbarClose
  | EvLogError (msg : string)
  | EvRead (r : reader) (p : string) (scaling : option string)
  | EvDebug
  | EvModelAll (m : modeler)
  | EvPrint (text : string)
  | EvSaveOutput (text : string) (print_path : option string).

(** [logging.error(msg)] *)
Definition logging_error (msg : string) : M event unit := emit (EvLogError msg).

(** [with ProgressBar(desc=...) as pbar: body]: the bar is closed on every
    exit path of the body, the exception (if any) is re-raised. *)
Definition with_ProgressBar {A} (desc : string) (body : M event A) : M event A :=
  let '(tr, r) := body in (EvPbarOpen desc :: tr ++ [EvPbarClose], r).

(** What a path points to: [os.path.isdir] and [os.path.isfile]. *)
Inductive path_kind : Type := Directory | RegularFile | Missing.

(** The collaborators of the driver that live outside extrapcmd.py. *)
Class World : Type := {
  experiment : Type;
  stat : string → path_kind;
  read_cube_file : string → string → result experiment;
  read_text_file : string → result experiment;
  read_talpas_file : string → result experiment;
  read_json_file : string → result experiment;
  read_extrap3_experiment : string → result experiment;
  (** [single_parameter.all_modelers]: name to class; calling the class
      gives a fresh instance. *)
  single_parameter_all_modelers : gmap string instance;
  (** the keys of [multi_parameter.all_modelers] *)
  multi_parameter_all_modelers : gset string;
  (** [ModelGenerator(experiment, modeler=..., use_median=...).modeler] *)
  ModelGenerator : experiment → string → bool → result modeler;
  (** [model_generator.model_all(pbar)] *)
  model_all : experiment → modeler → result experiment;
  format_output : experiment → string → string;
  SINGLE_PARAMETER_MODELER_KEY : string;
  SINGLE_PARAMETER_OPTIONS_KEY : string;
  (** [ModelerOptionsAction]: from the namespace so far and the KEY=VALUE
      tokens to the dictionary stored under [modeler_options]. *)
  ModelerOptionsAction : arguments → list string → result (gmap string value)
}.

Section driver.
Context `{W : World}.

Definition isdir (p : string) : bool :=
  match stat p with Directory => true | _ => false end.
Definition isfile (p : string) : bool :=
  match stat p with RegularFile => true | _ => false end.

(** *** Argument parsing (lines 37-76) *)

Inductive selector : Type := SelCube | SelText | SelTalpas | SelJson | SelExtrap3.

Global Instance selector_eq_dec : EqDecision selector.
Proof. solve_decision. Defined.

(** An argument vector after argparse has matched each option string to
    the action declared for it (lines 41-75): one item per action taken,
    with the values the action consumes.  How option strings are matched
    (abbreviations, [--opt=value]) is argparse's business and is not
    modelled; the declared actions, defaults, choices and the required
    mutually exclusive group are. *)
Inductive cli_item : Type :=
  | ILog (level : string)
  | IVersion
  | IHelpOptions (name : string)
  | ISelector (s : selector)
  | IModeler (name : string)
  | IOptions (tokens : list string)
  | IScaling (s : string)
  | IMedian
  | IOut (p : string)
  | IPrint (s : string)
  | IPath (p : string).

Inductive parse_result : Type :=
  | Parsed (a : arguments)
  | ParseExit (code : Z)       (* --version, --help-options *)
  | ParseError.                (* parser.error: usage message, status 2 *)

Definition defaults : arguments :=
  {| log_level := "WARNING"; cube := false; text := false; talpas := false;
     json := false; extrap3 := false; modeler_name := "Default";
     modeler_options := ∅; scaling_type := "weak"; median := false;
     out := None; print_type := "all"; path := None |}.

Definition in_modelers_list (name : string) : bool :=
  bool_decide (name ∈ dom single_parameter_all_modelers)
  || bool_decide (name ∈ multi_parameter_all_modelers).

Definition in_choices (s : string) (choices : list string) : bool :=
  bool_decide (s ∈ choices).

Definition set_selector (s : selector) (a : arguments) : arguments :=
  match s with
  | SelCube => {| log_level := log_level a; cube := true; text := text a;
        talpas := talpas a; json := json a; extrap3 := extrap3 a;
        modeler_name := modeler_name a; modeler_options := modeler_options a;
        scaling_type := scaling_type a; median := median a; out := out a;
        print_type := print_type a; path := path a |}
  | SelText => {| log_level := log_level a; cube := cube a; text := true;
        talpas := talpas a; json := json a; extrap3 := extrap3 a;
        modeler_name := modeler_name a; modeler_options := modeler_options a;
        scaling_type := scaling_type a; median := median a; out := out a;
        print_type := print_type a; path := path a |}
  | SelTalpas => {| log_level := log_level a; cube := cube a; text := text a;
        talpas := true; json := json a; extrap3 := extrap3 a;
        modeler_name := modeler_name a; modeler_options := modeler_options a;
        scaling_type := scaling_type a; median := median a; out := out a;
        print_type := print_type a; path := path a |}
  | SelJson => {| log_level := log_level a; cube := cube a; text := text a;
        talpas := talpas a; json := true; extrap3 := extrap3 a;
        modeler_name := modeler_name a; modeler_options := modeler_options a;
        scaling_type := scaling_type a; median := median a; out := out a;
        print_type := print_type a; path := path a |}
  | SelExtrap3 => {| log_level := log_level a; cube := cube a; text := text a;
        talpas := talpas a; json := json a; extrap3 := true;
        modeler_name := modeler_name a; modeler_options := modeler_options a;
        scaling_type := scaling_type a; median := median a; out := out a;
        print_type := print_type a; path := path a |}
  end.

Definition set_log_level (s : string) (a : arguments) : arguments :=
  {| log_level := s; cube := cube a; text := text a;
     talpas := talpas a; json := json a; extrap3 := extrap3 a;
     modeler_name := modeler_name a; modeler_options := modeler_options a;
     scaling_type := scaling_type a; median := median a; out := out a;
     print_type := print_type a; path := path a |}.

Definition set_modeler (s : string) (a : arguments) : arguments :=
  {| log_level := log_level a; cube := cube a; text := text a;
     talpas := talpas a; json := json a; extrap3 := extrap3 a;
     modeler_name := s; modeler_options := modeler_options a;
     scaling_type := scaling_type a; median := median a; out := out a;
     print_type := print_type a; path := path a |}.

Definition set_modeler_options (o : gmap string value) (a : arguments) : arguments :=
  {| log_level := log_level a; cube := cube a; text := text a;
     talpas := talpas a; json := json a; extrap3 := extrap3 a;
     modeler_name := modeler_name a; modeler_options := o;
     scaling_type := scaling_type a; median := median a; out := out a;
     print_type := print_type a; path := path a |}.

Definition set_scaling_type (s : string) (a : arguments) : arguments :=
  {| log_level := log_level a; cube := cube a; text := text a;
     talpas := talpas a; json := json a; extrap3 := extrap3 a;
     modeler_name := modeler_name a; modeler_options := modeler_options a;
     scaling_type := s; median := median a; out := out a;
     print_type := print_type a; path := path a |}.

Definition set_median (a : arguments) : arguments :=
  {| log_level := log_level a; cube := cube a; text := text a;
     talpas := talpas a; json := json a; extrap3 := extrap3 a;
     modeler_name := modeler_name a; modeler_options := modeler_options a;
     scaling_type := scaling_type a; median := true; out := out a;
     print_type := print_type a; path := path a |}.

Definition set_out (p : string) (a : arguments) : arguments :=
  {| log_level := log_level a; cube := cube a; text := text a;
     talpas := talpas a; json := json a; extrap3 := extrap3 a;
     modeler_name := modeler_name a; modeler_options := modeler_options a;
     scaling_type := scaling_type a; median := median a; out := Some p;
     print_type := print_type a; path := path a |}.

Definition set_print_type (s : string) (a : arguments) : arguments :=
  {| log_level := log_level a; cube := cube a; text := text a;
     talpas := talpas a; json := json a; extrap3 := extrap3 a;
     modeler_name := modeler_name a; modeler_options := modeler_options a;
     scaling_type := scaling_type a; median := median a; out := out a;
     print_type := s; path := path a |}.

Definition set_path (p : string) (a : arguments) : arguments :=
  {| log_level := log_level a; cube := cube a; text := text a;
     talpas := talpas a; json := json a; extrap3 := extrap3 a;
     modeler_name := modeler_name a; modeler_options := modeler_options a;
     scaling_type := scaling_type a; median := median a; out := out a;
     print_type := print_type a; path := Some p |}.

(** The parser consumes the items left to right.  [seen] is the action of
    the mutually exclusive group taken so far ([seen_non_default_actions]
    restricted to the group): taking a different action of the group is an
    error, repeating the same one is not.  [ModelerHelpAction] is not part
    of extrapcmd.py; as the help surface is described, it prints the option
    descriptions of the named modeler and exits.  [ModelerOptionsAction]
    stores its result under its own [dest] and touches nothing else. *)
Fixpoint parse_items (items : list cli_item) (seen : option selector)
    (a : arguments) : parse_result :=
  match items with
  | [] =>
      match seen, path a with
      | Some _, Some _ => Parsed a
      | _, _ => ParseError      (* required group / required FILEPATH *)
      end
  | it :: rest =>
      match it with
      | ILog level =>
          let level := str_upper level in
          if in_choices level ["DEBUG"; "INFO"; "WARNING"; "ERROR"; "CRITICAL"]
          then parse_items rest seen (set_log_level level a)
          else ParseError
      | IVersion => ParseExit 0
      | IHelpOptions name =>
          if in_modelers_list name then ParseExit 0 else ParseError
      | ISelector s =>
          match seen with
          | Some s' =>
              if decide (s' = s) then parse_items rest seen (set_selector s a)
              else ParseError   (* not allowed with argument ... *)
          | None => parse_items rest (Some s) (set_selector s a)
          end
      | IModeler name =>
          if in_modelers_list name
          then parse_items rest seen (set_modeler name a)
          else ParseError
      | IOptions tokens =>
          match tokens with
          | [] => ParseError    (* nargs='+' *)
          | _ =>
              match ModelerOptionsAction a tokens with
              | Ok o => parse_items rest seen (set_modeler_options o a)
              | Raise _ => ParseError
              end
          end
      | IScaling s =>
          if in_choices s ["weak"; "strong"]
          then parse_items rest seen (set_scaling_type s a)
          else ParseError
      | IMedian => parse_items rest seen (set_median a)
      | IOut p => parse_items rest seen (set_out p a)
      | IPrint s =>
          if in_choices s ["all"; "callpaths"; "metrics"; "parameters"; "functions"]
          then parse_items rest seen (set_print_type s a)
          else ParseError
      | IPath p =>
          match path a with
          | None => parse_items rest seen (set_path p a)
          | Some _ => ParseError  (* unrecognized arguments *)
          end
      end
  end.

Definition parse_args (items : list cli_item) : parse_result :=
  parse_items items None defaults.

(** *** Loading (lines 113-140) *)

Definition call_reader (r : reader) (p : string) (scaling : option string)
    (res : result experiment) : M event experiment :=
  emit (EvRead r p scaling) >> lift res.

Definition load (a : arguments) (p : string) : M event experiment :=
  with_ProgressBar "Loading file"
    (if cube a then
       if isdir p then
         call_reader CubeReader p (Some (scaling_type a))
                     (read_cube_file p (scaling_type a))
       else
         logging_error "The given path is not valid. It must point to a directory." >>
         sys_exit 1
     else if isfile p then
       if text a then call_reader TextReader p None (read_text_file p)
       else if talpas a then call_reader TalpasReader p None (read_talpas_file p)
       else if json a then call_reader JsonReader p None (read_json_file p)
       else if extrap3 a then
         call_reader Extrap3Reader p None (read_extrap3_experiment p)
       else
         logging_error "The file format specifier is missing." >>
         sys_exit 1
     else
       logging_error "The given file path is not valid." >>
       sys_exit 1).

(** *** Applying the modeler options (lines 149-164) *)

(** [setattr(obj, name, value)] on the top-level modeler. *)
Definition setattr (m : modeler) (name : string) (v : value) : modeler :=
  {| mod_class := mod_class m; mod_multi := mod_multi m;
     mod_attrs := <[name := v]> (mod_attrs m) |}.

(** [getattr(obj, name)] *)
Definition getattr (m : modeler) (name : string) : result value :=
  match mod_attrs m !! name with
  | Some v => Ok v
  | None => Raise (AttributeError name)
  end.

(** [setattr(modeler.single_parameter_modeler, name, value)]: the target is
    whatever the attribute holds; only a modeler instance accepts new
    attributes. *)
Definition setattr_nested (target : value) (name : string) (a : atom) : result value :=
  match target with
  | VInst i => Ok (VInst {| inst_class := inst_class i;
                            inst_attrs := <[name := a]> (inst_attrs i) |})
  | _ => Raise (AttributeError name)
  end.

(** [single_parameter.all_modelers[single_modeler]()] *)
Definition instantiate (single_modeler : value) : result instance :=
  match single_modeler with
  | VAtom (AStr name) =>
      match single_parameter_all_modelers !! name with
      | Some i => Ok i
      | None => Raise (KeyError name)
      end
  | VAtom _ => Raise (KeyError "")
  | _ => Raise TypeError          (* unhashable key *)
  end.

(** [d[key]] *)
Definition getitem (d : gmap string value) (key : string) : result value :=
  match d !! key with
  | Some v => Ok v
  | None => Raise (KeyError key)
  end.

(** [d.items()] of the nested option dictionary. *)
Definition items_of (v : value) : result (gmap string atom) :=
  match v with
  | VDict d => Ok d
  | _ => Raise (AttributeError "items")
  end.

(** The loop of lines 158-160 over the nested options. *)
Definition apply_nested_options (nested : gmap string atom) (target : value)
    : result value :=
  map_fold (λ name a acc,
              match acc with
              | Ok t => if atom_is_not_None a then setattr_nested t name a else Ok t
              | Raise e => Raise e
              end) (Ok target) nested.

(** The loop of lines 162-164 over the top-level options. *)
Definition apply_options (opts : gmap string value) (m : modeler) : modeler :=
  map_fold (λ name v acc, if is_not_None v then setattr acc name v else acc) m opts.

Definition result_bind {A B} (r : result A) (k : A → result B) : result B :=
  match r with Ok a => k a | Raise e => Raise e end.

(** Lines 151-160: the part run only for a multi-parameter modeler with a
    non-empty option dictionary. *)
Definition configure_nested (opts : gmap string value) (m : modeler) : result modeler :=
  if mod_multi m && negb (bool_decide (opts = ∅)) then
    result_bind (getitem opts SINGLE_PARAMETER_MODELER_KEY) (λ single_modeler,
    result_bind (if is_not_None single_modeler
                 then result_bind (instantiate single_modeler) (λ i,
                      Ok (setattr m "single_parameter_modeler" (VInst i)))
                 else Ok m) (λ m1,
    result_bind (getattr m1 "single_parameter_modeler") (λ sub,
    if is_not_None sub then
      result_bind (getitem opts SINGLE_PARAMETER_OPTIONS_KEY) (λ nested_v,
      result_bind (items_of nested_v) (λ nested,
      result_bind (apply_nested_options nested sub) (λ sub',
      Ok (setattr m1 "single_parameter_modeler" sub'))))
    else Ok m1)))
  else Ok m.

(** Lines 149-164. *)
Definition configure (opts : gmap string value) (m : modeler) : result modeler :=
  result_bind (configure_nested opts m) (λ m1, Ok (apply_options opts m1)).

(** *** main, after parsing (lines 78-182) *)

Definition run (a : arguments) : M event unit :=
  let loglevel := log_level a in
  let printtype := str_upper (print_type a) in
  emit (EvBasicConfig (bool_decide (loglevel = "DEBUG")) loglevel) >>
  let use_median := median a in
  let print_path := out a in
  let print_output := match out a with Some _ => true | None => false end in
  match path a with
  | Some p =>
      let! experiment := load a p in
      emit EvDebug >>
      let! modeler := lift (ModelGenerator experiment (modeler_name a) use_median) in
      let! modeler := lift (configure (modeler_options a) modeler) in
      let! experiment := with_ProgressBar "Generating models"
                           (emit (EvModelAll modeler) >>
                            lift (model_all experiment modeler)) in
      let text := format_output experiment printtype in
      emit (EvPrint text) >>
      if print_output then emit (EvSaveOutput text print_path) else ret tt
  | None =>
      logging_error "No file path given to load files." >>
      sys_exit 1
  end.

Definition main (argv : list cli_item) : M event unit :=
  match parse_args argv with
  | Parsed a => run a
  | ParseExit code => sys_exit code
  | ParseError => sys_exit 2
  end.

(** The process exit status of a finished run. *)
Definition exit_status (r : result unit) : option Z :=
  match r with
  | Ok _ => Some 0
  | Raise (SystemExit code) => Some code
  | Raise _ => Some 1           (* uncaught exception: traceback, status 1 *)
  end.

(** The five format selectors of the namespace. *)
Definition selectors (a : arguments) : list bool :=
  [cube a; text a; talpas a; json a; extrap3 a].

Definition exactly_one_selector (a : arguments) : Prop :=
  length (filter (λ b, b = true) (selectors a)) = 1%nat.

Definition one_hot (s : selector) : list bool :=
  match s with
  | SelCube => [true; false; false; false; false]
  | SelText => [false; true; false; false; false]
  | SelTalpas => [false; false; true; false; false]
  | SelJson => [false; false; false; true; false]
  | SelExtrap3 => [false; false; false; false; true]
  end.

(** What the parser knows about the selectors after each item. *)
Definition selectors_agree (seen : option selector) (a : arguments) : Prop :=
  match seen with
  | Some s => selectors a = one_hot s
  | None => selectors a = [false; false; false; false; false]
  end.

(** The reader the chain of tests in lines 115-134 picks: [--cube] is
    looked at first, then the others in the order of the [elif]s. *)
Definition selected_reader (a : arguments) : option reader :=
  if cube a then Some CubeReader
  else if text a then Some TextReader
  else if talpas a then Some TalpasReader
  else if json a then Some JsonReader
  else if extrap3 a then Some Extrap3Reader
  else None.

(** Follows the progress bars through a trace: [Some b] when every bar
    that is closed was open and no bar is opened while another is open,
    [b] telling whether a bar is open at the end. *)
Fixpoint pbar_scan (tr : list event) (open : bool) : option bool :=
  match tr with
  | [] => Some open
  | EvPbarOpen _ :: tr' => if open then None else pbar_scan tr' true
  | EvPbarClose :: tr' => if open then pbar_scan tr' false else None
  | _ :: tr' => pbar_scan tr' open
  end.

(** The values [choices=] lets through, and the defaults beside them. *)
Definition namespace_in_choices (a : arguments) : Prop :=
  log_level a ∈ ["DEBUG"; "INFO"; "WARNING"; "ERROR"; "CRITICAL"]
  ∧ scaling_type a ∈ ["weak"; "strong"]
  ∧ print_type a ∈ ["all"; "callpaths"; "metrics"; "parameters"; "functions"]
  ∧ (modeler_name a = "Default" ∨ in_modelers_list (modeler_name a) = true).

End driver.
End extrapcmd.

(* ===================================================================== *)
(** ** The interactive driver: extrapgui.py                               *)
(* ===================================================================== *)

Module extrapgui.

(** What the exception hook receives: [(type, value, traceback_)], reduced
    to what the handler inspects. *)
Record exc_info : Type := ExcInfo {
  exc_recoverable : bool;          (* issubclass(type, RecoverableError) *)
  exc_has_NAME : bool;             (* hasattr(value, 'NAME') *)
  exc_str : string;                (* str(value) *)
  exc_traceback_lines : list string
}.

Inductive icon : Type := IconWarning | IconCritical.

(** Calls made by the interactive driver, in program order. *)
Inductive event : Type :=
  | EvThreadStart                          (* _preload_common_fonts() *)
  | EvBasicConfig (level : string)
  | EvAppNew (argv : list string)          (* QApplication(sys.argv) *)
  | EvAppInstance                          (* QApplication.instance() *)
  | EvSetStyle (style : string)
  | EvSetPalette
  | EvWindowNew                            (* MainWidget() *)
  | EvInstallHandlers
  | EvWindowShow
  | EvRead (r : reader) (p : string)
  | EvModelExperiment                      (* window.model_experiment *)
  | EvSetExperiment                        (* window.setExperiment *)
  | EvAppExec                              (* app.exec_(): the event loop *)
  | EvThreadJoin                           (* font_preloader.join() *)
  | EvMsgBoxNew
  | EvSetWindowTitle (title : string)
  | EvSetIcon (i : icon)
  | EvSetText (text : string)
  | EvSetDetailedText (text : string)
  | EvOldWarningsHandler (message : string)
  | EvOldExceptionHandler (e : exc_info)
  | EvMsgBoxOpen                           (* msgBox.open() *)
  | EvMsgBoxExec.                          (* msgBox.exec_() *)

(** Qt: [QDialog.open] shows the dialog and returns at once; [exec_] runs
    a nested event loop and returns when the dialog is dismissed. *)
Definition shows_dialog (e : event) : bool :=
  match e with EvMsgBoxOpen | EvMsgBoxExec => true | _ => false end.

Definition blocks (e : event) : bool :=
  match e with EvMsgBoxExec => true | _ => false end.

(** What reaches the installed hooks while the application runs. *)
Inductive uncaught : Type :=
  | Warned (message : string)
  | Thrown (e : exc_info).

(** What [main] returns. *)
Inductive returned : Type :=
  | ReturnNone
  | ReturnWindowApp.                       (* return window, app *)

Class World : Type := {
  experiment : Type;
  __title__ : string;                      (* __info__.__title__ *)
  read_text_file : string → result experiment;
  read_json_file : string → result experiment;
  read_extrap3_experiment : string → result experiment;
  model_experiment : experiment → result unit;
  setExperiment : experiment → result unit
}.

Section driver.
Context `{W : World}.

Definition join_lines (ls : list string) : string :=
  fold_right String.append "" ls.

(** Lines 74-81. *)
Definition _warnings_handler (test : bool) (message : string) : M event unit :=
  emit EvMsgBoxNew >>
  emit (EvSetWindowTitle "Warning") >>
  emit (EvSetIcon IconWarning) >>
  emit (EvSetText message) >>
  (if negb test then emit EvMsgBoxOpen else ret tt) >>
  emit (EvOldWarningsHandler message).

(** Lines 83-101. *)
Definition _exception_handler (test : bool) (e : exc_info) : M event unit :=
  emit EvMsgBoxNew >>
  (if exc_has_NAME e then emit (EvSetWindowTitle __title__)
   else emit (EvSetWindowTitle "Error")) >>
  emit (EvSetIcon IconCritical) >>
  emit (EvSetText (exc_str e)) >>
  emit (EvSetDetailedText (join_lines (exc_traceback_lines e))) >>
  if test then
    emit (EvOldExceptionHandler e)
  else if exc_recoverable e then
    emit (EvOldExceptionHandler e) >>
    emit EvMsgBoxOpen
  else
    emit (EvOldExceptionHandler e) >>
    emit EvMsgBoxExec >>
    sys_exit 1.

(** [app.exec_()]: every warning or uncaught exception raised while the
    loop runs goes through the installed hook; the loop ends when nothing
    is pending (the window was closed) or when a hook ends the process. *)
Fixpoint event_loop (test : bool) (pending : list uncaught) : M event unit :=
  match pending with
  | [] => ret tt
  | Warned w :: rest => _warnings_handler test w >> event_loop test rest
  | Thrown e :: rest => _exception_handler test e >> event_loop test rest
  end.

Definition call_reader (r : reader) (p : string) (res : result experiment)
    : M event experiment :=
  emit (EvRead r p) >> lift res.

(** [sys.argv[i]] *)
Definition argv_at (argv : list string) (i : nat) : string :=
  default "" (argv !! i).

(** [len(sys.argv) >= 3 and flag == sys.argv[1]] *)
Definition startup_flag (argv : list string) (flag : string) : bool :=
  (3 <=? length argv)%nat && bool_decide (flag = argv_at argv 1).

(** Lines 108-119. *)
Definition autoload (argv : list string) : M event unit :=
  if startup_flag argv "--text" then
    let! experiment := call_reader TextReader (argv_at argv 2)
                                   (read_text_file (argv_at argv 2)) in
    emit EvModelExperiment >> lift (model_experiment experiment)
  else if startup_flag argv "--json" then
    let! experiment := call_reader JsonReader (argv_at argv 2)
                                   (read_json_file (argv_at argv 2)) in
    emit EvModelExperiment >> lift (model_experiment experiment)
  else if startup_flag argv "--extra-p-3" then
    let! experiment := call_reader Extrap3Reader (argv_at argv 2)
                                   (read_extrap3_experiment (argv_at argv 2)) in
    emit EvSetExperiment >> lift (setExperiment experiment)
  else ret tt.

(** Lines 41-126.  [pending] is what the event loop will meet. *)
Definition main (test : bool) (argv : list string) (pending : list uncaught)
    : M event returned :=
  emit EvThreadStart >>
  emit (EvBasicConfig (if bool_decide ("--debug" ∈ argv) then "DEBUG" else "INFO")) >>
  emit (if negb test then EvAppNew argv else EvAppInstance) >>
  emit (EvSetStyle "Fusion") >>
  emit EvSetPalette >>
  emit EvWindowNew >>
  emit EvInstallHandlers >>
  emit EvWindowShow >>
  autoload argv >>
  if negb test then
    emit EvAppExec >>
    event_loop test pending >>
    emit EvThreadJoin >>
    ret ReturnNone
  else
    emit EvThreadJoin >>
    ret ReturnWindowApp.

(** The calls every run of [_exception_handler] starts with (lines 84-92). *)
Definition exception_dialog_setup (e : exc_info) : list event :=
  [EvMsgBoxNew;
   EvSetWindowTitle (if exc_has_NAME e then __title__ else "Error");
   EvSetIcon IconCritical;
   EvSetText (exc_str e);
   EvSetDetailedText (join_lines (exc_traceback_lines e))].

(** The calls of [main] before the start-up file is looked at (lines 43-106). *)
Definition startup (test : bool) (argv : list string) : list event :=
  [EvThreadStart;
   EvBasicConfig (if bool_decide ("--debug" ∈ argv) then "DEBUG" else "INFO");
   (if negb test then EvAppNew argv else EvAppInstance);
   EvSetStyle "Fusion"; EvSetPalette; EvWindowNew; EvInstallHandlers;
   EvWindowShow].

(** Events that only the two installed hooks emit. *)
Definition hook_event (e : event) : bool :=
  match e with
  | EvMsgBoxNew | EvSetWindowTitle _ | EvSetIcon _ | EvSetText _
  | EvSetDetailedText _ | EvOldWarningsHandler _ | EvOldExceptionHandler _
  | EvMsgBoxOpen | EvMsgBoxExec => true
  | _ => false
  end.

(** Events that only the start-up loading emits. *)
Definition autoload_event (e : event) : bool :=
  match e with
  | EvRead _ _ | EvModelExperiment | EvSetExperiment => true
  | _ => false
  end.

(** What ends the process when it reaches the exception hook outside test
    mode: an exception that is not of the recoverable category. *)
Definition fatal (u : uncaught) : bool :=
  match u with
  | Warned _ => false
  | Thrown e => negb (exc_recoverable e)
  end.

End driver.
End extrapgui.

(* ===================================================================== *)
(** ** Concrete collaborators used to run the drivers                     *)
(* ===================================================================== *)

Module fixtures.

Definition Default : instance :=
  Instance "Default" {[ "allow_log_terms" := ABool true ]}.
Definition Basic : instance :=
  Instance "Basic" {[ "poly_exponents" := AStr "0,1,2" ]}.

Definition multi_modeler (use_median : bool) : modeler :=
  Modeler "Multi-Parameter" true
    {[ "single_parameter_modeler" := VInst Default;
       "use_median" := VAtom (ABool use_median) ]}.

Definition single_modeler (name : string) (use_median : bool) : modeler :=
  Modeler name false {[ "use_median" := VAtom (ABool use_median) ]}.

(** A file system with one regular file and one directory, readers that
    always succeed, and a registry with two single-parameter modelers and
    one multi-parameter modeler. *)
Definition cmd_world : extrapcmd.World :=
  {| extrapcmd.experiment := unit;
     extrapcmd.stat := λ p,
       if String.eqb p "input.txt" then extrapcmd.RegularFile
       else if String.eqb p "cube_dir" then extrapcmd.Directory
       else extrapcmd.Missing;
     extrapcmd.read_cube_file := λ _ _, Ok tt;
     extrapcmd.read_text_file := λ _, Ok tt;
     extrapcmd.read_talpas_file := λ _, Ok tt;
     extrapcmd.read_json_file := λ _, Ok tt;
     extrapcmd.read_extrap3_experiment := λ _, Ok tt;
     extrapcmd.single_parameter_all_modelers :=
       {[ "Default" := Default; "Basic" := Basic ]};
     extrapcmd.multi_parameter_all_modelers := {[ "Multi-Parameter" ]};
     extrapcmd.ModelGenerator := λ _ name use_median,
       Ok (if String.eqb name "Multi-Parameter" then multi_modeler use_median
           else single_modeler name use_median);
     extrapcmd.model_all := λ e _, Ok e;
     extrapcmd.format_output := λ _ printtype, printtype;
     extrapcmd.SINGLE_PARAMETER_MODELER_KEY := "#single_parameter_modeler";
     extrapcmd.SINGLE_PARAMETER_OPTIONS_KEY := "#single_parameter_options";
     extrapcmd.ModelerOptionsAction := λ _ _, Ok ∅ |}.

Definition gui_world : extrapgui.World :=
  {| extrapgui.experiment := unit;
     extrapgui.__title__ := "Extra-P";
     extrapgui.read_text_file := λ _, Ok tt;
     extrapgui.read_json_file := λ _, Ok tt;
     extrapgui.read_extrap3_experiment := λ _, Ok tt;
     extrapgui.model_experiment := λ _, Ok tt;
     extrapgui.setExperiment := λ _, Ok tt |}.

(** Namespaces as [parse_args] returns them. *)
Definition args (text cube : bool) (modeler : string)
    (opts : gmap string value) (scaling : string) (out : option string)
    (p : string) : extrapcmd.arguments :=
  {| extrapcmd.log_level := "WARNING"; extrapcmd.cube := cube;
     extrapcmd.text := text; extrapcmd.talpas := false;
     extrapcmd.json := false; extrapcmd.extrap3 := false;
     extrapcmd.modeler_name := modeler; extrapcmd.modeler_options := opts;
     extrapcmd.scaling_type := scaling; extrapcmd.median := false;
     extrapcmd.out := out; extrapcmd.print_type := "all";
     extrapcmd.path := Some p |}.

(** [--text input.txt] with one option no modeler declares. *)
Definition unknown_option_args : extrapcmd.arguments :=
  args true false "Default" {[ "bogus" := VAtom (AInt 1) ]} "weak" None "input.txt".

(** [--text --out report.txt cube_dir]: a directory without [--cube]. *)
Definition directory_args : extrapcmd.arguments :=
  args true false "Default" ∅ "weak" (Some "report.txt") "cube_dir".


(** The nested options given to the multi-parameter modeler. *)
Definition nested_options : gmap string atom :=
  {[ "poly_exponents" := AStr "1,2"; "allow_log_terms" := ANone ]}.

Definition multi_options : gmap string value :=
  {[ "#single_parameter_modeler" := VAtom (AStr "Basic");
     "#single_parameter_options" := VDict nested_options;
     "use_median" := VAtom ANone ]}.



(** An exception of the recoverable category and one outside it. *)
Definition recoverable_exc : extrapgui.exc_info :=
  extrapgui.ExcInfo true true "Not enough data" ["line 1"].
Definition fatal_exc : extrapgui.exc_info :=
  extrapgui.ExcInfo false false "division by zero" ["line 1"; "line 2"].

End fixtures.

(** Further inputs: error paths of both drivers. *)
Module scenarios.
Import fixtures.

(** [--cube input.txt]: the cube selector on a regular file. *)
Definition cube_on_file_args : extrapcmd.arguments :=
  args false true "Default" ∅ "weak" None "input.txt".

(** [--text --out report.txt input.txt] *)
Definition saved_args : extrapcmd.arguments :=
  args true false "Default" ∅ "weak" (Some "report.txt") "input.txt".


(** Nested options without a nested modeler name. *)
Definition unnamed_options : gmap string value :=
  {[ "#single_parameter_modeler" := VAtom ANone;
     "#single_parameter_options" := VDict nested_options ]}.

(** Options that lack the reserved modeler key. *)
Definition keyless_options : gmap string value :=
  {[ "use_median" := VAtom (ABool true) ]}.

(** An interactive session whose text reader fails. *)
Definition failing_gui_world : extrapgui.World :=
  {| extrapgui.experiment := unit;
     extrapgui.__title__ := "Extra-P";
     extrapgui.read_text_file := λ _, Raise (OtherError "FileFormatError");
     extrapgui.read_json_file := λ _, Ok tt;
     extrapgui.read_extrap3_experiment := λ _, Ok tt;
     extrapgui.model_experiment := λ _, Ok tt;
     extrapgui.setExperiment := λ _, Ok tt |}.

End scenarios.

(* ===================================================================== *)
(** ** Properties of the trace monad                                      *)
(* ===================================================================== *)

Section monad_facts.
Context {E : Type}.

Lemma trace_bind {A B} (c : M E A) (k : A → M E B) :
  trace (bind c k) =
  trace c ++ match outcome c with Ok a => trace (k a) | Raise _ => [] end.
Proof.
  destruct c as [tr [a|e]]; simpl.
  - destruct (k a) as [tr' r]. reflexivity.
  - by rewrite app_nil_r.
Qed.

Lemma outcome_bind {A B} (c : M E A) (k : A → M E B) :
  outcome (bind c k) =
  match outcome c with Ok a => outcome (k a) | Raise e => Raise e end.
Proof.
  destruct c as [tr [a|e]]; simpl; [|done].
  by destruct (k a).
Qed.

Lemma trace_pair {A} (tr : list E) (r : result A) : trace (tr, r) = tr.
Proof. done. Qed.

Lemma outcome_pair {A} (tr : list E) (r : result A) : outcome (tr, r) = r.
Proof. done. Qed.

Lemma trace_emit (e : E) : trace (emit e) = [e].
Proof. done. Qed.

Lemma outcome_emit (e : E) : outcome (emit e) = Ok tt.
Proof. done. Qed.

Lemma trace_emit_bind {B} (e : E) (k : unit → M E B) :
  trace (bind (emit e) k) = e :: trace (k tt).
Proof. by rewrite trace_bind. Qed.

Lemma outcome_emit_bind {B} (e : E) (k : unit → M E B) :
  outcome (bind (emit e) k) = outcome (k tt).
Proof. by rewrite outcome_bind. Qed.

End monad_facts.

(* ===================================================================== *)
(** ** The interactive driver: the installed hooks                        *)
(* ===================================================================== *)

Section gui_hooks.
Import extrapgui.
Context `{W : World}.

Lemma exception_handler_test (e : exc_info) :
  _exception_handler true e =
  (exception_dialog_setup e ++ [EvOldExceptionHandler e], Ok tt).
Proof.
  unfold _exception_handler, exception_dialog_setup.
  by destruct (exc_has_NAME e).
Qed.

Lemma exception_handler_recoverable (e : exc_info) :
  exc_recoverable e = true →
  _exception_handler false e =
  (exception_dialog_setup e ++ [EvOldExceptionHandler e; EvMsgBoxOpen], Ok tt).
Proof.
  intros Hr. unfold _exception_handler, exception_dialog_setup. rewrite Hr.
  by destruct (exc_has_NAME e).
Qed.

Lemma exception_handler_fatal (e : exc_info) :
  exc_recoverable e = false →
  _exception_handler false e =
  (exception_dialog_setup e ++ [EvOldExceptionHandler e; EvMsgBoxExec],
   Raise (SystemExit 1)).
Proof.
  intros Hr. unfold _exception_handler, exception_dialog_setup. rewrite Hr.
  by destruct (exc_has_NAME e).
Qed.

Lemma exception_dialog_setup_never_blocks (e : exc_info) :
  Forall (λ ev, blocks ev = false ∧ shows_dialog ev = false)
         (exception_dialog_setup e).
Proof. unfold exception_dialog_setup. repeat constructor. Qed.

Lemma exception_handler_hook_events (test : bool) (e : exc_info) :
  Forall (λ ev, hook_event ev = true) (trace (_exception_handler test e)).
Proof.
  destruct test.
  - rewrite exception_handler_test. unfold exception_dialog_setup.
    repeat constructor.
  - destruct (exc_recoverable e) eqn:Hr.
    + rewrite exception_handler_recoverable by done.
      unfold exception_dialog_setup. repeat constructor.
    + rewrite exception_handler_fatal by done.
      unfold exception_dialog_setup. repeat constructor.
Qed.

Lemma warnings_handler_hook_events (test : bool) (w : string) :
  Forall (λ ev, hook_event ev = true) (trace (_warnings_handler test w)).
Proof. destruct test; repeat constructor. Qed.

Lemma event_loop_hook_events (test : bool) (pending : list uncaught) :
  Forall (λ ev, hook_event ev = true) (trace (event_loop test pending)).
Proof.
  induction pending as [|[w|e] rest IH]; simpl.
  - constructor.
  - rewrite trace_bind. apply Forall_app. split.
    + apply warnings_handler_hook_events.
    + by destruct (outcome (_warnings_handler test w)).
  - rewrite trace_bind. apply Forall_app. split.
    + apply exception_handler_hook_events.
    + by destruct (outcome (_exception_handler test e)).
Qed.

Lemma autoload_events (argv : list string) :
  Forall (λ ev, autoload_event ev = true) (trace (autoload argv)).
Proof.
  unfold autoload, call_reader, bind, emit, lift, ret, trace.
  repeat case_match; simplify_eq; simpl; repeat constructor.
Qed.

End gui_hooks.

Section gui_claims.
Import extrapgui.
Context `{W : World}.

Lemma main_unfold (test : bool) (argv : list string) (pending : list uncaught) :
  main test argv pending =
  bind (startup test argv, Ok tt) (λ _,
    autoload argv >>
    if negb test then
      emit EvAppExec >> event_loop test pending >> emit EvThreadJoin >>
      ret ReturnNone
    else emit EvThreadJoin >> ret ReturnWindowApp).
Proof.
  unfold main, startup. simpl.
  destruct (autoload argv >> _) as [tr r]. reflexivity.
Qed.

Lemma not_in_autoload (ev : event) (argv : list string) :
  autoload_event ev = false → ¬ In ev (trace (autoload argv)).
Proof.
  intros Hev Hin.
  pose proof (autoload_events argv) as HF.
  rewrite List.Forall_forall in HF. specialize (HF _ Hin). congruence.
Qed.

Lemma not_in_event_loop (ev : event) (test : bool) (pending : list uncaught) :
  hook_event ev = false → ¬ In ev (trace (event_loop test pending)).
Proof.
  intros Hev Hin.
  pose proof (event_loop_hook_events test pending) as HF.
  rewrite List.Forall_forall in HF. specialize (HF _ Hin). congruence.
Qed.

Lemma not_in_startup (ev : event) (test : bool) (argv : list string) :
  hook_event ev = true ∨ autoload_event ev = true ∨ ev = EvAppExec ∨ ev = EvThreadJoin →
  ¬ In ev (startup test argv).
Proof.
  intros Hev Hin. unfold startup in Hin.
  destruct test; simpl in Hin;
    repeat (destruct Hin as [<-|Hin]; [simpl in Hev; intuition congruence|]);
    exact Hin.
Qed.

(** C2, as the code has it: for an uncaught exception of the recoverable
    category the installed hook forwards the exception to the previous hook
    and, outside test mode, opens the dialog with the non-blocking [open()];
    in test mode no dialog is shown at all.  In both modes the hook returns
    normally, no call of the hook waits for the dialog, and the event loop
    goes on with whatever comes next. *)
Theorem recoverable_exception_keeps_session
    (test : bool) (e : exc_info) (rest : list uncaught) :
  exc_recoverable e = true →
  _exception_handler test e =
    (exception_dialog_setup e ++
       EvOldExceptionHandler e :: (if test then [] else [EvMsgBoxOpen]),
     Ok tt)
  ∧ (∀ ev, In ev (trace (_exception_handler test e)) → blocks ev = false)
  ∧ trace (event_loop test (Thrown e :: rest)) =
      trace (_exception_handler test e) ++ trace (event_loop test rest)
  ∧ outcome (event_loop test (Thrown e :: rest)) = outcome (event_loop test rest).
Proof.
  intros Hr.
  assert (Heq : _exception_handler test e =
    (exception_dialog_setup e ++
       EvOldExceptionHandler e :: (if test then [] else [EvMsgBoxOpen]),
     Ok tt)).
  { destruct test.
    - apply exception_handler_test.
    - by apply exception_handler_recoverable. }
  split; [exact Heq|]. split; [|split].
  - rewrite Heq. unfold trace. cbn [fst]. intros ev Hin.
    apply in_app_or in Hin as [Hin|Hin].
    + pose proof (exception_dialog_setup_never_blocks e) as HF.
      rewrite List.Forall_forall in HF. by destruct (HF _ Hin).
    + destruct test; simpl in Hin; intuition (subst; done).
  - simpl. rewrite trace_bind, Heq. reflexivity.
  - simpl. rewrite outcome_bind, Heq. reflexivity.
Qed.

(** C6: outside test mode, for an uncaught exception that is not of the
    recoverable category the installed hook forwards the exception to the
    previous hook, then shows the dialog with the blocking [exec_()], then
    ends the process with status 1; nothing that was still pending in the
    event loop is handled, and [main] ends with that exit. *)
Theorem fatal_exception_dialog_then_exit
    (e : exc_info) (argv : list string) (rest : list uncaught) :
  exc_recoverable e = false →
  _exception_handler false e =
    (exception_dialog_setup e ++ [EvOldExceptionHandler e; EvMsgBoxExec],
     Raise (SystemExit 1))
  ∧ blocks EvMsgBoxExec = true
  ∧ (∀ ev, In ev (exception_dialog_setup e) → shows_dialog ev = false)
  ∧ event_loop false (Thrown e :: rest) = _exception_handler false e
  ∧ (outcome (autoload argv) = Ok tt →
     outcome (main false argv (Thrown e :: rest)) = Raise (SystemExit 1)).
Proof.
  intros Hr.
  pose proof (exception_handler_fatal e Hr) as Heq.
  split; [exact Heq|]. split; [reflexivity|]. split; [|split].
  - intros ev Hin.
    pose proof (exception_dialog_setup_never_blocks e) as HF.
    rewrite List.Forall_forall in HF. by destruct (HF _ Hin).
  - simpl. rewrite Heq. reflexivity.
  - intros Hload. rewrite main_unfold, outcome_bind, outcome_pair.
    rewrite outcome_bind, Hload. cbn [negb].
    rewrite outcome_emit_bind, outcome_bind.
    cbn [event_loop]. rewrite outcome_bind, Heq. reflexivity.
Qed.

(** C3, as the code has it: outside test mode [main] enters the event loop
    first and joins the font-preloading thread only after the loop has
    returned; in test mode it joins the thread, never enters the event loop
    and returns the window and the application. *)
Theorem font_preloader_joined_after_event_loop
    (test : bool) (argv : list string) (pending : list uncaught) (r : returned) :
  outcome (main test argv pending) = Ok r →
  if test then
    r = ReturnWindowApp
    ∧ trace (main test argv pending) =
        startup test argv ++ trace (autoload argv) ++ [EvThreadJoin]
    ∧ ¬ In EvAppExec (trace (main test argv pending))
    ∧ ¬ In EvThreadJoin (startup test argv ++ trace (autoload argv))
  else
    r = ReturnNone
    ∧ trace (main test argv pending) =
        (startup test argv ++ trace (autoload argv)) ++
        EvAppExec :: trace (event_loop false pending) ++ [EvThreadJoin]
    ∧ ¬ In EvThreadJoin (startup test argv ++ trace (autoload argv))
    ∧ ¬ In EvThreadJoin (trace (event_loop false pending)).
Proof.
  intros Hout.
  assert (Hpre : ¬ In EvThreadJoin (startup test argv ++ trace (autoload argv))).
  { intros Hin. apply in_app_or in Hin as [Hin|Hin].
    - revert Hin. apply not_in_startup. auto.
    - revert Hin. by apply not_in_autoload. }
  rewrite main_unfold in Hout |- *.
  rewrite outcome_bind, outcome_pair in Hout.
  rewrite trace_bind, outcome_pair, trace_pair.
  rewrite outcome_bind in Hout. rewrite trace_bind.
  destruct (outcome (autoload argv)) as [[]|ex] eqn:Hload; [|done].
  destruct test; cbn [negb] in Hout |- *.
  - split; [by inversion Hout|]. split; [reflexivity|]. split; [|done].
    intros Hin. apply in_app_or in Hin as [Hin|Hin].
    + revert Hin. apply not_in_startup. auto.
    + apply in_app_or in Hin as [Hin|Hin].
      * revert Hin. by apply not_in_autoload.
      * simpl in Hin. intuition discriminate.
  - rewrite outcome_emit_bind, outcome_bind in Hout.
    rewrite trace_emit_bind, trace_bind.
    destruct (outcome (event_loop false pending)) as [[]|ex] eqn:Hloop; [|done].
    split; [by inversion Hout|]. split.
    + by rewrite <- app_assoc.
    + split; [done|]. by apply not_in_event_loop.
Qed.

(** C5, at the start-up arguments [--extra-p-3 PATH]: the file is read with
    the Extra-P 3 reader and handed to [window.setExperiment]; the model
    generator ([window.model_experiment]) is not run anywhere in [main].
    For [--text PATH] and [--json PATH] the experiment that was read is
    passed to [window.model_experiment] before the event loop. *)
Theorem extrap3_autoload_does_not_model
    (test : bool) (prog p : string) (more : list string) (pending : list uncaught) :
  trace (autoload (prog :: "--extra-p-3" :: p :: more)) =
    EvRead Extrap3Reader p ::
      match read_extrap3_experiment p with
      | Ok _ => [EvSetExperiment]
      | Raise _ => []
      end
  ∧ ¬ In EvModelExperiment
        (trace (main test (prog :: "--extra-p-3" :: p :: more) pending))
  ∧ trace (autoload (prog :: "--text" :: p :: more)) =
      EvRead TextReader p ::
        match read_text_file p with
        | Ok _ => [EvModelExperiment]
        | Raise _ => []
        end
  ∧ trace (autoload (prog :: "--json" :: p :: more)) =
      EvRead JsonReader p ::
        match read_json_file p with
        | Ok _ => [EvModelExperiment]
        | Raise _ => []
        end.
Proof.
  assert (Hx : trace (autoload (prog :: "--extra-p-3" :: p :: more)) =
    EvRead Extrap3Reader p ::
      match read_extrap3_experiment p with
      | Ok _ => [EvSetExperiment]
      | Raise _ => []
      end).
  { unfold autoload, startup_flag, argv_at, call_reader. simpl.
    destruct (read_extrap3_experiment p) as [x|ex]; simpl; [|done].
    by destruct (setExperiment x). }
  split; [exact Hx|]. split; [|split].
  - rewrite main_unfold, trace_bind, outcome_pair, trace_pair. intros Hin.
    apply in_app_or in Hin as [Hin|Hin].
    { revert Hin. apply not_in_startup. auto. }
    rewrite trace_bind, Hx in Hin.
    apply in_app_or in Hin as [Hin|Hin].
    { destruct (read_extrap3_experiment p); simpl in Hin;
        intuition discriminate. }
    destruct (outcome (autoload _)) as [[]|]; [|done].
    destruct test; cbn [negb] in Hin.
    + simpl in Hin. intuition discriminate.
    + rewrite trace_emit_bind, trace_bind in Hin.
      destruct Hin as [Hin|Hin]; [done|].
      apply in_app_or in Hin as [Hin|Hin].
      * revert Hin. by apply not_in_event_loop.
      * destruct (outcome (event_loop _ _)); simpl in Hin;
          intuition discriminate.
  - unfold autoload, startup_flag, argv_at, call_reader. simpl.
    destruct (read_text_file p) as [x|ex]; simpl; [|done].
    by destruct (model_experiment x).
  - unfold autoload, startup_flag, argv_at, call_reader. simpl.
    destruct (read_json_file p) as [x|ex]; simpl; [|done].
    by destruct (model_experiment x).
Qed.

End gui_claims.

(* ===================================================================== *)
(** ** The batch driver: applying options                                 *)
(* ===================================================================== *)

Section cmd_options.
Import extrapcmd.
Context `{W : World}.

(** What the loop of lines 162-164 leaves in each attribute. *)
Lemma apply_options_lookup (opts : gmap string value) (m : modeler) (name : string) :
  mod_attrs (apply_options opts m) !! name =
  match opts !! name with
  | Some v => if is_not_None v then Some v else mod_attrs m !! name
  | None => mod_attrs m !! name
  end.
Proof.
  unfold apply_options.
  apply (map_fold_weak_ind (λ r (o : gmap string value),
    mod_attrs r !! name =
    match o !! name with
    | Some v => if is_not_None v then Some v else mod_attrs m !! name
    | None => mod_attrs m !! name
    end)).
  - by rewrite lookup_empty.
  - intros k v o r Hk IH.
    destruct (decide (k = name)) as [->|Hne].
    + rewrite lookup_insert_eq.
      destruct (is_not_None v); simpl.
      * by rewrite lookup_insert_eq.
      * by rewrite IH, Hk.
    + rewrite lookup_insert_ne by done.
      destruct (is_not_None v); simpl; [|done].
      by rewrite lookup_insert_ne.
Qed.

Lemma apply_options_class (opts : gmap string value) (m : modeler) :
  mod_class (apply_options opts m) = mod_class m
  ∧ mod_multi (apply_options opts m) = mod_multi m.
Proof.
  unfold apply_options.
  apply (map_fold_weak_ind (λ r (o : gmap string value),
    mod_class r = mod_class m ∧ mod_multi r = mod_multi m)); [done|].
  intros k v o r _ IH. by destruct (is_not_None v).
Qed.

(** What the loop of lines 158-160 does to a modeler instance. *)
Lemma apply_nested_options_instance (nested : gmap string atom) (i : instance) :
  ∃ i', apply_nested_options nested (VInst i) = Ok (VInst i')
        ∧ inst_class i' = inst_class i
        ∧ ∀ name, inst_attrs i' !! name =
            match nested !! name with
            | Some a => if atom_is_not_None a then Some a else inst_attrs i !! name
            | None => inst_attrs i !! name
            end.
Proof.
  unfold apply_nested_options.
  apply (map_fold_weak_ind (λ r (o : gmap string atom),
    ∃ i', r = Ok (VInst i') ∧ inst_class i' = inst_class i
          ∧ ∀ name, inst_attrs i' !! name =
              match o !! name with
              | Some a => if atom_is_not_None a then Some a else inst_attrs i !! name
              | None => inst_attrs i !! name
              end)).
  - exists i. split; [done|]. split; [done|]. intros name.
    by rewrite lookup_empty.
  - intros k a o r Hk (i' & -> & Hc & Hl).
    destruct (atom_is_not_None a) eqn:Ha; simpl.
    + eexists. split; [done|]. split; [done|]. intros name. simpl.
      destruct (decide (k = name)) as [->|Hne].
      * by rewrite !lookup_insert_eq, Ha.
      * rewrite !lookup_insert_ne by done. apply Hl.
    + exists i'. split; [done|]. split; [done|]. intros name.
      destruct (decide (k = name)) as [->|Hne].
      * by rewrite lookup_insert_eq, Ha, Hl, Hk.
      * rewrite lookup_insert_ne by done. apply Hl.
Qed.

(** On anything but an instance the loop goes through only when every
    nested option is [None]; the target is then untouched. *)
Lemma apply_nested_options_untouched (nested : gmap string atom) (t t' : value) :
  (∀ i, t ≠ VInst i) →
  apply_nested_options nested t = Ok t' → t' = t.
Proof.
  intros Hni. unfold apply_nested_options. revert t'.
  apply (map_fold_weak_ind (λ r (o : gmap string atom),
    ∀ t', r = Ok t' → t' = t)).
  - by intros t' [= ->].
  - intros k a o r _ IH t'. destruct r as [t0|ex]; [|done].
    rewrite (IH t0 eq_refl).
    destruct (atom_is_not_None a); [|by intros [= ->]].
    destruct t; simpl; try done. by destruct (Hni i).
Qed.

Lemma configure_nested_single (opts : gmap string value) (m : modeler) :
  mod_multi m = false → configure_nested opts m = Ok m.
Proof. intros H. unfold configure_nested. by rewrite H. Qed.

Lemma configure_single (opts : gmap string value) (m : modeler) :
  mod_multi m = false → configure opts m = Ok (apply_options opts m).
Proof. intros H. unfold configure. by rewrite configure_nested_single. Qed.


End cmd_options.

(* ===================================================================== *)
(** ** The batch driver: loading and running                              *)
(* ===================================================================== *)

Section cmd_run.
Import extrapcmd.
Context `{W : World}.

Ltac run_cases H :=
  unfold run, load, with_ProgressBar, call_reader, logging_error, sys_exit,
    bind, emit, lift, raise, ret, trace in H;
  repeat (case_match; simplify_eq);
  cbn [fst snd] in H.

Ltac in_cases H :=
  simpl in H;
  repeat (destruct H as [H|H]; [try discriminate H|]);
  try contradiction H.



Lemma configure_nested_frame (opts : gmap string value) (m m1 : modeler)
    (name : string) :
  configure_nested opts m = Ok m1 →
  name ≠ "single_parameter_modeler" →
  mod_attrs m1 !! name = mod_attrs m !! name.
Proof.
  unfold configure_nested, result_bind, setattr.
  intros Hc Hne. repeat (case_match; simplify_eq); simpl;
    by rewrite ?lookup_insert_ne by done.
Qed.

Lemma parse_items_selectors (items : list cli_item) :
  ∀ (seen : option selector) (a a' : arguments),
    selectors_agree seen a →
    parse_items items seen a = Parsed a' →
    ∃ s, selectors a' = one_hot s.
Proof.
  induction items as [|it rest IH]; intros seen a a' Hagree Hp; simpl in Hp.
  - destruct seen as [s|]; [|done]. destruct (path a); [|done].
    simplify_eq. by exists s.
  - destruct it; repeat case_match; simplify_eq;
      try (by eapply IH; [|eassumption]).
    + (* the selector seen before, again *)
      eapply (IH (Some s)); [|eassumption].
      unfold selectors_agree, selectors in *.
      destruct s; injection Hagree as H1 H2 H3 H4 H5; simpl; congruence.
    + (* the first selector *)
      eapply (IH (Some s)); [|eassumption].
      unfold selectors_agree, selectors in *.
      destruct s; injection Hagree as H1 H2 H3 H4 H5; simpl; congruence.
Qed.

Lemma run_never_misses_specifier (a : arguments) (s : selector) :
  selectors a = one_hot s →
  ¬ In (EvLogError "The file format specifier is missing.") (trace (run a)).
Proof.
  intros Hs Hin. unfold selectors in Hs.
  run_cases Hin; in_cases Hin; destruct s; simplify_eq.
Qed.


(** C4, as the code has it: when the path is a directory and [--cube] is
    not set, the driver logs "The given file path is not valid." (the
    message of the branch that is taken when the path is no regular file),
    exits with status 1, and has called neither a reader nor [model_all]
    nor [save_output], whatever [--out] was. *)
Theorem directory_without_cube_is_invalid_path (a : arguments) (p : string) :
  path a = Some p →
  stat p = Directory →
  cube a = false →
  run a =
    ([EvBasicConfig (bool_decide (log_level a = "DEBUG")) (log_level a);
      EvPbarOpen "Loading file";
      EvLogError "The given file path is not valid.";
      EvPbarClose],
     Raise (SystemExit 1))
  ∧ exit_status (outcome (run a)) = Some 1.
Proof.
  intros Hp Hd Hc.
  assert (Hrun : run a =
    ([EvBasicConfig (bool_decide (log_level a = "DEBUG")) (log_level a);
      EvPbarOpen "Loading file";
      EvLogError "The given file path is not valid.";
      EvPbarClose],
     Raise (SystemExit 1))).
  { unfold run, load, isfile. rewrite Hp, Hc, Hd. reflexivity. }
  by rewrite Hrun.
Qed.


(** C9: when parsing succeeds, exactly one of the five format selectors of
    the namespace is set, and the run on that namespace never logs "The
    file format specifier is missing.". *)
Theorem parsed_arguments_have_one_selector
    (argv : list cli_item) (a : arguments) :
  parse_args argv = Parsed a →
  exactly_one_selector a
  ∧ ¬ In (EvLogError "The file format specifier is missing.") (trace (run a))
  ∧ ¬ In (EvLogError "The file format specifier is missing.") (trace (main argv)).
Proof.
  intros Hp.
  destruct (parse_items_selectors argv None defaults a) as [s Hs];
    [done|exact Hp|].
  split; [|split].
  - unfold exactly_one_selector. rewrite Hs. by destruct s.
  - by eapply run_never_misses_specifier.
  - unfold main. rewrite Hp. by eapply run_never_misses_specifier.
Qed.


(** C10: an option whose parsed value is [None] is skipped.  The loop over
    the top-level options leaves the modeler's attribute of that name as it
    was, the loop over the nested options leaves the sub-modeler's attribute
    of that name as it was, and after the whole configuration the modeler's
    attribute of that name is the one it had before (the attribute
    [single_parameter_modeler] apart, which the reserved modeler key
    assigns). *)
Theorem none_options_are_skipped
    (opts : gmap string value) (nested : gmap string atom)
    (m : modeler) (sub : instance) (name nested_name : string) :
  opts !! name = Some (VAtom ANone) →
  nested !! nested_name = Some ANone →
  mod_attrs (apply_options opts m) !! name = mod_attrs m !! name
  ∧ (∃ sub', apply_nested_options nested (VInst sub) = Ok (VInst sub')
             ∧ inst_attrs sub' !! nested_name = inst_attrs sub !! nested_name)
  ∧ (∀ m', configure opts m = Ok m' → name ≠ "single_parameter_modeler" →
       mod_attrs m' !! name = mod_attrs m !! name).
Proof.
  intros Hv Hn. split; [|split].
  - by rewrite apply_options_lookup, Hv.
  - destruct (apply_nested_options_instance nested sub) as (sub' & Hs & _ & Hl).
    exists sub'. split; [done|]. by rewrite Hl, Hn.
  - intros m' Hcfg Hne. unfold configure in Hcfg.
    destruct (configure_nested opts m) as [m1|ex] eqn:Hc1; [|done].
    simpl in Hcfg. injection Hcfg as <-.
    rewrite apply_options_lookup, Hv. simpl.
    by eapply configure_nested_frame.
Qed.

End cmd_run.

(* ===================================================================== *)
(** ** The drivers on concrete inputs                                     *)
(* ===================================================================== *)

Section concrete_runs.
Import fixtures.

(** *** The interactive driver *)

(** C2 at a recoverable exception: outside test mode the hook returns
    normally after [open()], and none of its calls blocks; in test mode it
    shows no dialog. *)
Lemma recoverable_dialog_does_not_block :
  extrapgui.exc_recoverable recoverable_exc = true
  ∧ extrapgui._exception_handler (W:=gui_world) false recoverable_exc =
      ([extrapgui.EvMsgBoxNew; extrapgui.EvSetWindowTitle "Extra-P";
        extrapgui.EvSetIcon extrapgui.IconCritical;
        extrapgui.EvSetText "Not enough data";
        extrapgui.EvSetDetailedText "line 1";
        extrapgui.EvOldExceptionHandler recoverable_exc;
        extrapgui.EvMsgBoxOpen],
       Ok tt)
  ∧ ¬ (∃ ev, In ev (trace (extrapgui._exception_handler (W:=gui_world)
                              false recoverable_exc))
             ∧ extrapgui.blocks ev = true)
  ∧ ¬ (∃ ev, In ev (trace (extrapgui._exception_handler (W:=gui_world)
                              true recoverable_exc))
             ∧ extrapgui.shows_dialog ev = true).
Proof.
  split; [reflexivity|]. split; [reflexivity|]. split.
  - intros (ev & Hin & Hb). simpl in Hin.
    repeat (destruct Hin as [<-|Hin]; [discriminate Hb|]). exact Hin.
  - intros (ev & Hin & Hb). simpl in Hin.
    repeat (destruct Hin as [<-|Hin]; [discriminate Hb|]). exact Hin.
Qed.

Lemma recoverable_exception_keeps_session_witness :
  extrapgui.exc_recoverable recoverable_exc = true
  ∧ (∀ ev, In ev (trace (extrapgui._exception_handler (W:=gui_world)
                            false recoverable_exc)) →
           extrapgui.blocks ev = false)
  ∧ outcome (extrapgui.event_loop (W:=gui_world) false
               [extrapgui.Thrown recoverable_exc; extrapgui.Warned "late"]) =
    outcome (extrapgui.event_loop (W:=gui_world) false [extrapgui.Warned "late"]).
Proof.
  split; [reflexivity|].
  pose proof (recoverable_exception_keeps_session (W:=gui_world) false
                recoverable_exc [extrapgui.Warned "late"] eq_refl)
    as (_ & Hb & _ & Ho).
  split; [exact Hb|exact Ho].
Defined.

Lemma fatal_exception_dialog_then_exit_witness :
  extrapgui.exc_recoverable fatal_exc = false
  ∧ extrapgui._exception_handler (W:=gui_world) false fatal_exc =
      ([extrapgui.EvMsgBoxNew; extrapgui.EvSetWindowTitle "Error";
        extrapgui.EvSetIcon extrapgui.IconCritical;
        extrapgui.EvSetText "division by zero";
        extrapgui.EvSetDetailedText "line 1line 2";
        extrapgui.EvOldExceptionHandler fatal_exc;
        extrapgui.EvMsgBoxExec],
       Raise (SystemExit 1))
  ∧ outcome (extrapgui.main (W:=gui_world) false ["extrapgui.py"]
               [extrapgui.Thrown fatal_exc; extrapgui.Warned "never seen"]) =
    Raise (SystemExit 1).
Proof.
  split; [reflexivity|].
  pose proof (fatal_exception_dialog_then_exit (W:=gui_world) fatal_exc
                ["extrapgui.py"] [extrapgui.Warned "never seen"] eq_refl)
    as (Hh & _ & _ & _ & Hm).
  split; [exact Hh|exact (Hm eq_refl)].
Defined.

(** C3 at a plain start outside test mode with one warning pending: the
    event loop is entered, the warning is handled inside it, and only then
    is the thread joined. *)
Lemma thread_joined_after_event_loop :
  extrapgui.main (W:=gui_world) false ["extrapgui.py"] [extrapgui.Warned "slow"] =
  ([extrapgui.EvThreadStart; extrapgui.EvBasicConfig "INFO";
    extrapgui.EvAppNew ["extrapgui.py"]; extrapgui.EvSetStyle "Fusion";
    extrapgui.EvSetPalette; extrapgui.EvWindowNew;
    extrapgui.EvInstallHandlers; extrapgui.EvWindowShow;
    extrapgui.EvAppExec;
    extrapgui.EvMsgBoxNew; extrapgui.EvSetWindowTitle "Warning";
    extrapgui.EvSetIcon extrapgui.IconWarning; extrapgui.EvSetText "slow";
    extrapgui.EvMsgBoxOpen; extrapgui.EvOldWarningsHandler "slow";
    extrapgui.EvThreadJoin],
   Ok extrapgui.ReturnNone).
Proof. reflexivity. Qed.

Lemma font_preloader_joined_after_event_loop_witness :
  outcome (extrapgui.main (W:=gui_world) false
             ["extrapgui.py"; "--text"; "input.txt"]
             [extrapgui.Thrown recoverable_exc]) = Ok extrapgui.ReturnNone
  ∧ trace (extrapgui.main (W:=gui_world) false
             ["extrapgui.py"; "--text"; "input.txt"]
             [extrapgui.Thrown recoverable_exc]) =
      (extrapgui.startup false ["extrapgui.py"; "--text"; "input.txt"] ++
       trace (extrapgui.autoload (W:=gui_world)
                ["extrapgui.py"; "--text"; "input.txt"])) ++
      extrapgui.EvAppExec ::
      trace (extrapgui.event_loop (W:=gui_world) false
               [extrapgui.Thrown recoverable_exc]) ++
      [extrapgui.EvThreadJoin].
Proof.
  split; [reflexivity|].
  pose proof (font_preloader_joined_after_event_loop (W:=gui_world) false
                ["extrapgui.py"; "--text"; "input.txt"]
                [extrapgui.Thrown recoverable_exc] extrapgui.ReturnNone eq_refl)
    as (_ & Ht & _).
  exact Ht.
Defined.

(** C5 at [--extra-p-3 old.extrap] in test mode: the experiment is read
    and set, and [main] returns without a call of [model_experiment]. *)
Lemma extrap3_startup_run :
  extrapgui.main (W:=gui_world) true
    ["extrapgui.py"; "--extra-p-3"; "old.extrap"] [] =
  ([extrapgui.EvThreadStart; extrapgui.EvBasicConfig "INFO";
    extrapgui.EvAppInstance; extrapgui.EvSetStyle "Fusion";
    extrapgui.EvSetPalette; extrapgui.EvWindowNew;
    extrapgui.EvInstallHandlers; extrapgui.EvWindowShow;
    extrapgui.EvRead Extrap3Reader "old.extrap";
    extrapgui.EvSetExperiment;
    extrapgui.EvThreadJoin],
   Ok extrapgui.ReturnWindowApp).
Proof. reflexivity. Qed.

(** *** The batch driver *)



(** C4 at [--text --out report.txt cube_dir]: the message logged is the
    one for an invalid file path, not the one for a missing format
    specifier. *)
Lemma directory_without_cube_logs_invalid_path :
  extrapcmd.stat (World:=cmd_world) "cube_dir" = extrapcmd.Directory
  ∧ extrapcmd.main (W:=cmd_world)
      [extrapcmd.ISelector extrapcmd.SelText; extrapcmd.IOut "report.txt";
       extrapcmd.IPath "cube_dir"] =
    ([extrapcmd.EvBasicConfig false "WARNING";
      extrapcmd.EvPbarOpen "Loading file";
      extrapcmd.EvLogError "The given file path is not valid.";
      extrapcmd.EvPbarClose],
     Raise (SystemExit 1))
  ∧ ¬ In (extrapcmd.EvLogError "The file format specifier is missing.")
         (trace (extrapcmd.main (W:=cmd_world)
            [extrapcmd.ISelector extrapcmd.SelText; extrapcmd.IOut "report.txt";
             extrapcmd.IPath "cube_dir"])).
Proof.
  split; [reflexivity|]. split; [vm_compute; reflexivity|].
  vm_compute. intros Hin.
  repeat (destruct Hin as [Hin|Hin]; [discriminate Hin|]). exact Hin.
Qed.

Lemma directory_without_cube_is_invalid_path_witness :
  extrapcmd.path directory_args = Some "cube_dir"
  ∧ extrapcmd.out directory_args = Some "report.txt"
  ∧ extrapcmd.run (W:=cmd_world) directory_args =
    ([extrapcmd.EvBasicConfig false "WARNING";
      extrapcmd.EvPbarOpen "Loading file";
      extrapcmd.EvLogError "The given file path is not valid.";
      extrapcmd.EvPbarClose],
     Raise (SystemExit 1))
  ∧ extrapcmd.exit_status
      (outcome (extrapcmd.run (W:=cmd_world) directory_args)) = Some 1.
Proof.
  split; [reflexivity|]. split; [reflexivity|].
  exact (directory_without_cube_is_invalid_path (W:=cmd_world)
           directory_args "cube_dir" eq_refl eq_refl eq_refl).
Defined.




Lemma parsed_arguments_have_one_selector_witness :
  extrapcmd.parse_args (W:=cmd_world)
    [extrapcmd.IModeler "Basic"; extrapcmd.ISelector extrapcmd.SelJson;
     extrapcmd.IMedian; extrapcmd.IPath "input.txt";
     extrapcmd.ISelector extrapcmd.SelJson]
  = extrapcmd.Parsed
      {| extrapcmd.log_level := "WARNING"; extrapcmd.cube := false;
         extrapcmd.text := false; extrapcmd.talpas := false;
         extrapcmd.json := true; extrapcmd.extrap3 := false;
         extrapcmd.modeler_name := "Basic"; extrapcmd.modeler_options := ∅;
         extrapcmd.scaling_type := "weak"; extrapcmd.median := true;
         extrapcmd.out := None; extrapcmd.print_type := "all";
         extrapcmd.path := Some "input.txt" |}
  ∧ extrapcmd.exactly_one_selector
      {| extrapcmd.log_level := "WARNING"; extrapcmd.cube := false;
         extrapcmd.text := false; extrapcmd.talpas := false;
         extrapcmd.json := true; extrapcmd.extrap3 := false;
         extrapcmd.modeler_name := "Basic"; extrapcmd.modeler_options := ∅;
         extrapcmd.scaling_type := "weak"; extrapcmd.median := true;
         extrapcmd.out := None; extrapcmd.print_type := "all";
         extrapcmd.path := Some "input.txt" |}.
Proof.
  assert (Hp : extrapcmd.parse_args (W:=cmd_world)
    [extrapcmd.IModeler "Basic"; extrapcmd.ISelector extrapcmd.SelJson;
     extrapcmd.IMedian; extrapcmd.IPath "input.txt";
     extrapcmd.ISelector extrapcmd.SelJson]
  = extrapcmd.Parsed
      {| extrapcmd.log_level := "WARNING"; extrapcmd.cube := false;
         extrapcmd.text := false; extrapcmd.talpas := false;
         extrapcmd.json := true; extrapcmd.extrap3 := false;
         extrapcmd.modeler_name := "Basic"; extrapcmd.modeler_options := ∅;
         extrapcmd.scaling_type := "weak"; extrapcmd.median := true;
         extrapcmd.out := None; extrapcmd.print_type := "all";
         extrapcmd.path := Some "input.txt" |}).
  { vm_compute. reflexivity. }
  split; [exact Hp|].
  exact (proj1 (parsed_arguments_have_one_selector (W:=cmd_world) _ _ Hp)).
Defined.

Lemma none_options_are_skipped_witness :
  multi_options !! "use_median" = Some (VAtom ANone)
  ∧ nested_options !! "allow_log_terms" = Some ANone
  ∧ mod_attrs (extrapcmd.apply_options multi_options (multi_modeler true))
      !! "use_median" = Some (VAtom (ABool true))
  ∧ ∃ sub', extrapcmd.apply_nested_options nested_options (VInst Default)
              = Ok (VInst sub')
            ∧ inst_attrs sub' !! "allow_log_terms" = Some (ABool true).
Proof.
  assert (H1 : multi_options !! "use_median" = Some (VAtom ANone)).
  { vm_compute. reflexivity. }
  assert (H2 : nested_options !! "allow_log_terms" = Some ANone).
  { vm_compute. reflexivity. }
  split; [exact H1|]. split; [exact H2|].
  destruct (none_options_are_skipped (W:=cmd_world) multi_options nested_options
              (multi_modeler true) Default "use_median" "allow_log_terms" H1 H2)
    as (Htop & (sub' & Hs & Hl) & _).
  split.
  - rewrite Htop. vm_compute. reflexivity.
  - exists sub'. split; [exact Hs|]. rewrite Hl. vm_compute. reflexivity.
Defined.

End concrete_runs.

(* ===================================================================== *)
(** ** The batch driver: further properties of a run                      *)
(* ===================================================================== *)

Section cmd_more.
Import extrapcmd.
Context `{W : World}.

Ltac open_run :=
  unfold run, load, with_ProgressBar, call_reader, logging_error, sys_exit,
    bind, emit, lift, raise, ret, trace, outcome in *;
  repeat (case_match; simplify_eq);
  cbn [fst snd] in *.

Ltac split_in H :=
  simpl in H;
  repeat (destruct H as [H|H]; [try discriminate H|]);
  try contradiction H.

(** X1: with [--cube] the path has to be a directory: anything else, a regular
    file included, is answered with the directory message and status 1,
    and no reader is called. *)
Theorem cube_needs_directory (a : arguments) (p : string) :
  path a = Some p →
  cube a = true →
  isdir p = false →
  run a =
    ([EvBasicConfig (bool_decide (log_level a = "DEBUG")) (log_level a);
      EvPbarOpen "Loading file";
      EvLogError "The given path is not valid. It must point to a directory.";
      EvPbarClose],
     Raise (SystemExit 1)).
Proof.
  intros Hp Hc Hd. unfold run, load. rewrite Hp, Hc, Hd. reflexivity.
Qed.

(** X2: a run that calls [logging.error] ends with [sys.exit(1)], has called
    no reader and no [model_all], has printed and saved nothing, and the
    message is one of the four the driver has. *)
Theorem logged_error_ends_run (a : arguments) (msg : string) :
  In (EvLogError msg) (trace (run a)) →
  outcome (run a) = Raise (SystemExit 1)
  ∧ (∀ ev, In ev (trace (run a)) →
       match ev with
       | EvRead _ _ _ | EvModelAll _ | EvPrint _ | EvSaveOutput _ _ | EvDebug => False
       | _ => True
       end)
  ∧ msg ∈ ["The given path is not valid. It must point to a directory.";
           "The file format specifier is missing.";
           "The given file path is not valid.";
           "No file path given to load files."].
Proof.
  intros Hin. open_run; split_in Hin; simplify_eq.
  all: split; [reflexivity|]; split;
    [intros ev Hev; split_in Hev; by subst|set_solver].
Qed.


(** X4: the shape of a run that ends normally: one reader call on the given
    path, [debug], one [model_all], the formatted text printed, and the
    same text saved to the [--out] path exactly when [--out] was given;
    the two progress bars bracket the reader and [model_all]. *)
Theorem completed_run_shape (a : arguments) :
  outcome (run a) = Ok tt →
  ∃ r p s m text,
    path a = Some p
    ∧ selected_reader a = Some r
    ∧ trace (run a) =
        [EvBasicConfig (bool_decide (log_level a = "DEBUG")) (log_level a);
         EvPbarOpen "Loading file"; EvRead r p s; EvPbarClose;
         EvDebug;
         EvPbarOpen "Generating models"; EvModelAll m; EvPbarClose;
         EvPrint text]
        ++ match out a with
           | Some print_path => [EvSaveOutput text (Some print_path)]
           | None => []
           end.
Proof.
  intros Hout. unfold selected_reader.
  open_run; simplify_eq; by repeat eexists.
Qed.

(** X5: every reader call of a run is on the given path, with the reader the
    selectors pick; the cube reader is only called on a directory, the
    others only on a regular file. *)
Theorem reader_follows_selector (a : arguments) (r : reader) (q : string)
    (s : option string) :
  In (EvRead r q s) (trace (run a)) →
  path a = Some q
  ∧ selected_reader a = Some r
  ∧ stat q = match r with CubeReader => Directory | _ => RegularFile end.
Proof.
  intros Hin. unfold selected_reader.
  open_run; split_in Hin; simplify_eq;
    unfold isdir, isfile in *; repeat case_match; done.
Qed.

(** X6: on every path through the driver, error exits and exceptions of the
    collaborators included, each progress bar that was opened is closed
    again, and the two bars are never open at once. *)
Theorem progress_bars_are_closed (a : arguments) :
  pbar_scan (trace (run a)) false = Some false.
Proof. open_run; reflexivity. Qed.

End cmd_more.

(* ===================================================================== *)
(** ** The batch driver: further properties of the configuration          *)
(* ===================================================================== *)

Section cmd_configure_more.
Import extrapcmd.
Context `{W : World}.

Lemma apply_options_empty (m : modeler) : apply_options ∅ m = m.
Proof. unfold apply_options. by rewrite map_fold_empty. Qed.

Lemma configure_empty (m : modeler) : configure ∅ m = Ok m.
Proof.
  unfold configure, configure_nested.
  rewrite bool_decide_eq_true_2 by done. rewrite andb_false_r. simpl.
  by rewrite apply_options_empty.
Qed.

Lemma configure_nested_kind (opts : gmap string value) (m m1 : modeler) :
  configure_nested opts m = Ok m1 →
  mod_class m1 = mod_class m ∧ mod_multi m1 = mod_multi m.
Proof.
  unfold configure_nested, result_bind, setattr.
  intros Hc. by repeat (case_match; simplify_eq).
Qed.

Lemma load_events (a : arguments) (p : string) :
  Forall (λ ev, match ev with
                | EvPbarOpen _ | EvPbarClose | EvLogError _ | EvRead _ _ _ => True
                | _ => False
                end) (trace (load a p)).
Proof.
  unfold load, with_ProgressBar, call_reader, logging_error, sys_exit,
    bind, emit, lift, raise, trace.
  repeat (case_match; simplify_eq); cbn [fst]; repeat constructor.
Qed.


(** X7: configuration changes attributes only: the class of the modeler and
    whether it is a multi-parameter modeler stay, and so does every
    attribute other than [single_parameter_modeler] for which the option
    dictionary has no entry or the entry [None]. *)
Theorem configure_keeps_the_rest (opts : gmap string value) (m m' : modeler) :
  configure opts m = Ok m' →
  mod_class m' = mod_class m
  ∧ mod_multi m' = mod_multi m
  ∧ ∀ name, name ≠ "single_parameter_modeler" →
      (∀ v, opts !! name = Some v → is_not_None v = false) →
      mod_attrs m' !! name = mod_attrs m !! name.
Proof.
  unfold configure.
  destruct (configure_nested opts m) as [m1|ex] eqn:Hn; [|done].
  simpl. intros [= <-].
  destruct (configure_nested_kind _ _ _ Hn) as [Hc Hm].
  destruct (apply_options_class opts m1) as [Hc' Hm'].
  split; [congruence|]. split; [congruence|].
  intros name Hne Hnone. rewrite apply_options_lookup.
  rewrite <- (configure_nested_frame opts m m1 name Hn Hne).
  destruct (opts !! name) as [v|]; [|done].
  by rewrite (Hnone v eq_refl).
Qed.

(** X8: without [--options] (the default, an empty dictionary) [model_all] is
    called on the modeler exactly as the model generator built it. *)
Theorem no_options_no_change (a : arguments) (m : modeler) :
  modeler_options a = ∅ →
  In (EvModelAll m) (trace (run a)) →
  ∃ exp, ModelGenerator exp (modeler_name a) (median a) = Ok m.
Proof.
  intros He Hin. unfold run in Hin. rewrite He in Hin.
  unfold load, with_ProgressBar, call_reader, logging_error, sys_exit,
    bind, emit, lift, raise, ret, trace in Hin.
  repeat (case_match; simplify_eq); cbn [fst snd] in Hin.
  all: simpl in Hin;
    repeat (destruct Hin as [Hin|Hin]; [try discriminate Hin|]);
    try contradiction Hin.
  all: match goal with
       | H : configure ∅ _ = Ok _ |- _ => rewrite configure_empty in H
       end; simplify_eq; eauto.
Qed.


(** X11: a multi-parameter modeler with a non-empty option dictionary that has
    no entry under the reserved modeler key: the subscript raises
    [KeyError] with that key, whatever else the dictionary holds. *)
Theorem missing_reserved_key_raises (opts : gmap string value) (m : modeler) :
  mod_multi m = true →
  opts ≠ ∅ →
  opts !! SINGLE_PARAMETER_MODELER_KEY = None →
  configure opts m = Raise (KeyError SINGLE_PARAMETER_MODELER_KEY).
Proof.
  intros Hmulti Hne Hkey. unfold configure, configure_nested, getitem.
  rewrite Hmulti, bool_decide_eq_false_2 by done. simpl. by rewrite Hkey.
Qed.

(** X12: when the reserved modeler key holds [None], the sub-modeler the
    multi-parameter modeler already has is kept: it is still an instance
    of the same class, and the nested options that are not [None] are
    assigned onto it (provided, as for a named sub-modeler, no top-level
    option called [single_parameter_modeler] overwrites it afterwards). *)
Theorem unnamed_nested_modeler_is_kept
    (opts : gmap string value) (m : modeler) (sub0 : instance)
    (nested : gmap string atom) :
  mod_multi m = true →
  opts !! SINGLE_PARAMETER_MODELER_KEY = Some (VAtom ANone) →
  mod_attrs m !! "single_parameter_modeler" = Some (VInst sub0) →
  opts !! SINGLE_PARAMETER_OPTIONS_KEY = Some (VDict nested) →
  (∀ v, opts !! "single_parameter_modeler" = Some v → is_not_None v = false) →
  ∃ m' sub,
    configure opts m = Ok m'
    ∧ mod_attrs m' !! "single_parameter_modeler" = Some (VInst sub)
    ∧ inst_class sub = inst_class sub0
    ∧ ∀ k, inst_attrs sub !! k =
        match nested !! k with
        | Some v => if atom_is_not_None v then Some v else inst_attrs sub0 !! k
        | None => inst_attrs sub0 !! k
        end.
Proof.
  intros Hmulti Hkey Hsub0 Hopts Htop.
  destruct (apply_nested_options_instance nested sub0) as (sub & Hsub & Hc & Hl).
  assert (Hne : bool_decide (opts = ∅) = false).
  { apply bool_decide_eq_false. intros He. by rewrite He, lookup_empty in Hkey. }
  assert (Hcfg : configure opts m =
    Ok (apply_options opts (setattr m "single_parameter_modeler" (VInst sub)))).
  { unfold configure, configure_nested, getitem, getattr, items_of.
    rewrite Hmulti, Hne, Hkey. simpl. rewrite Hsub0. simpl.
    rewrite Hopts. simpl. rewrite Hsub. reflexivity. }
  eexists _, sub. split; [exact Hcfg|]. split; [|done].
  rewrite apply_options_lookup. simpl.
  destruct (opts !! "single_parameter_modeler") as [v|] eqn:Hv.
  - rewrite (Htop v eq_refl). by rewrite lookup_insert_eq.
  - by rewrite lookup_insert_eq.
Qed.

(** X9: what [model_all] works on: the experiment the reader returned and the
    modeler the model generator built for [--modeler] and [--median],
    after configuration with the parsed options; it is not called unless
    loading, building and configuring all succeeded. *)
Theorem model_all_gets_loaded_and_configured (a : arguments) (m : modeler) :
  In (EvModelAll m) (trace (run a)) →
  ∃ p exp m0,
    path a = Some p
    ∧ outcome (load a p) = Ok exp
    ∧ ModelGenerator exp (modeler_name a) (median a) = Ok m0
    ∧ configure (modeler_options a) m0 = Ok m.
Proof.
  intros Hin. unfold run in Hin. destruct (path a) as [p|] eqn:Hp.
  2: { simpl in Hin. by destruct Hin as [Hin|[Hin|[]]]. }
  exists p. rewrite trace_emit_bind in Hin.
  destruct Hin as [Heq|Hin]; [discriminate Heq|].
  rewrite trace_bind in Hin. apply in_app_or in Hin as [Hin|Hin].
  { pose proof (load_events a p) as HF. rewrite List.Forall_forall in HF.
    by destruct (HF _ Hin). }
  destruct (outcome (load a p)) as [exp|ex]; [|done].
  exists exp. rewrite trace_emit_bind in Hin.
  destruct Hin as [Heq|Hin]; [discriminate Heq|].
  unfold lift, bind, emit, with_ProgressBar, ret, trace in Hin.
  destruct (ModelGenerator exp (modeler_name a) (median a)) as [m0|]; [|done].
  exists m0.
  destruct (configure (modeler_options a) m0) as [m1|]; [|done].
  destruct (model_all exp m1); destruct (out a); simpl in Hin;
    repeat (destruct Hin as [Hin|Hin]; [try discriminate Hin|]);
    try contradiction Hin; by simplify_eq.
Qed.

End cmd_configure_more.

(* ===================================================================== *)
(** ** The batch driver: further properties of the parser                 *)
(* ===================================================================== *)

Section cmd_parser_more.
Import extrapcmd.
Context `{W : World}.



Lemma set_selector_path (s : selector) (a : arguments) :
  path (set_selector s a) = path a.
Proof. by destruct s. Qed.

(** Once a selector was seen, every selector still to come is the same. *)
Lemma parse_items_seen_selector (items : list cli_item) :
  ∀ (seen : option selector) (a0 a : arguments) (s0 s : selector),
    parse_items items seen a0 = Parsed a →
    seen = Some s0 → In (ISelector s) items → s = s0.
Proof.
  induction items as [|it rest IH]; intros seen a0 a s0 s Hp Hseen Hin;
    [done|].
  subst seen. simpl in Hp. destruct Hin as [->|Hin].
  - by destruct (decide (s0 = s)).
  - destruct it; repeat (case_match; simplify_eq); simplify_eq;
      (eapply IH; [eassumption|reflexivity|assumption]).
Qed.

Lemma parse_items_one_selector (items : list cli_item) :
  ∀ (seen : option selector) (a0 a : arguments) (s1 s2 : selector),
    parse_items items seen a0 = Parsed a →
    In (ISelector s1) items → In (ISelector s2) items → s1 = s2.
Proof.
  induction items as [|it rest IH]; intros seen a0 a s1 s2 Hp H1 H2; [done|].
  destruct seen as [s0|].
  { rewrite (parse_items_seen_selector _ _ _ _ s0 s1 Hp eq_refl H1).
    by rewrite (parse_items_seen_selector _ _ _ _ s0 s2 Hp eq_refl H2). }
  simpl in Hp.
  destruct it; repeat (case_match; simplify_eq); simplify_eq;
    try (destruct H1 as [?|H1]; [done|]; destruct H2 as [?|H2]; [done|];
         by eapply IH).
  transitivity s.
  - destruct H1 as [[= ->]|H1]; [done|].
    by eapply parse_items_seen_selector.
  - destruct H2 as [[= ->]|H2]; [done|]. symmetry.
    by eapply parse_items_seen_selector.
Qed.

Lemma parse_items_in_choices (items : list cli_item) :
  ∀ (seen : option selector) (a0 a : arguments),
    namespace_in_choices a0 →
    parse_items items seen a0 = Parsed a →
    namespace_in_choices a ∧ is_Some (path a).
Proof.
  induction items as [|it rest IH]; intros seen a0 a Hv Hp; simpl in Hp.
  - destruct seen; [|done]. destruct (path a0) eqn:Hpath; [|done].
    simplify_eq. split; [done|]. by rewrite Hpath.
  - destruct Hv as (Hl & Hs & Hpr & Hm).
    destruct it; repeat (case_match; simplify_eq); simplify_eq;
      (eapply IH; [|eassumption]);
      unfold namespace_in_choices, in_choices in *; simpl;
      repeat split; try done;
      try (by match goal with
              | H : bool_decide _ = true |- _ =>
                  apply bool_decide_eq_true_1 in H
              end);
      try (by right);
      by match goal with s : selector |- _ => destruct s end.
Qed.

(** Once the positional argument was taken, the namespace keeps it. *)
Lemma parse_items_keeps_path (items : list cli_item) :
  ∀ (seen : option selector) (a0 a : arguments) (p : string),
    parse_items items seen a0 = Parsed a →
    path a0 = Some p →
    path a = Some p ∧ ∀ p', ¬ In (IPath p') items.
Proof.
  induction items as [|it rest IH]; intros seen a0 a p Hp Hpath; simpl in Hp.
  - destruct seen; [|done]. rewrite Hpath in Hp. simplify_eq.
    split; [done|]. by intros p' [].
  - destruct it; repeat (case_match; simplify_eq); simplify_eq;
      (edestruct IH as [Ha Hno];
         [eassumption|first [exact Hpath|by rewrite set_selector_path]|]);
      (split; [exact Ha|]);
      intros p' [Heq|Hin]; try discriminate Heq; by eapply Hno.
Qed.

Lemma parse_items_path_given (items : list cli_item) :
  ∀ (seen : option selector) (a0 a : arguments) (p : string),
    parse_items items seen a0 = Parsed a →
    path a0 = None →
    In (IPath p) items → path a = Some p.
Proof.
  induction items as [|it rest IH]; intros seen a0 a p Hp Hnone Hin; [done|].
  simpl in Hp.
  destruct it; repeat (case_match; simplify_eq); simplify_eq;
    try (destruct Hin as [Heq|Hin]; [discriminate Heq|];
         eapply IH; [eassumption| |assumption];
         first [exact Hnone|by rewrite set_selector_path]).
  destruct Hin as [[= ->]|Hin].
  - by eapply parse_items_keeps_path.
  - edestruct parse_items_keeps_path as [_ Hno]; [eassumption|reflexivity|].
    by destruct (Hno p).
Qed.

Lemma parse_items_selector_given (items : list cli_item) :
  ∀ (seen : option selector) (a0 a : arguments),
    parse_items items seen a0 = Parsed a →
    ∃ s, seen = Some s ∨ (seen = None ∧ In (ISelector s) items).
Proof.
  induction items as [|it rest IH]; intros seen a0 a Hp; simpl in Hp.
  - destruct seen as [s|]; [|done]. exists s. by left.
  - destruct seen as [s0|]; [exists s0; by left|].
    destruct it; repeat (case_match; simplify_eq); simplify_eq;
      try (match goal with
           | H : parse_items _ None _ = Parsed _ |- _ =>
               destruct (IH _ _ _ H) as [s' [Hs|[_ Hs]]];
               [discriminate Hs|exists s'; right; split; [done|by right]]
           end).
    exists s. right. split; [done|by left].
Qed.

(** X13: two different format selectors on one command line never parse. *)
Theorem different_selectors_are_rejected
    (argv : list cli_item) (s1 s2 : selector) :
  In (ISelector s1) argv →
  In (ISelector s2) argv →
  s1 ≠ s2 →
  ∀ a, parse_args argv ≠ Parsed a.
Proof.
  intros H1 H2 Hne a Hp.
  apply Hne. by eapply parse_items_one_selector.
Qed.

(** X14: what a parsed namespace is guaranteed to hold: a log level, scaling
    type and print type from the declared choices, a modeler that is
    either the default name or a registered one, and a path.  So the
    branch that logs "No file path given to load files." is never taken
    on a parsed namespace. *)
Theorem parsed_namespace_is_in_choices (argv : list cli_item) (a : arguments) :
  parse_args argv = Parsed a →
  namespace_in_choices a
  ∧ is_Some (path a)
  ∧ ¬ In (EvLogError "No file path given to load files.") (trace (run a)).
Proof.
  intros Hp.
  destruct (parse_items_in_choices argv None defaults a) as [Hv Hpath].
  { unfold namespace_in_choices, defaults. simpl.
    repeat split; [set_solver..|by left]. }
  { exact Hp. }
  split; [done|]. split; [done|].
  intros Hin. destruct Hpath as [p Hpath].
  unfold run, load, with_ProgressBar, call_reader, logging_error, sys_exit,
    bind, emit, lift, raise, ret, trace in Hin.
  rewrite Hpath in Hin.
  repeat (case_match; simplify_eq); cbn [fst snd] in Hin; simpl in Hin;
    repeat (destruct Hin as [Hin|Hin]; [try discriminate Hin|]);
    try contradiction Hin.
Qed.

(** X15: the selector and the path of a parsed namespace are the ones on the
    command line: the selector set is the single selector that occurs in
    the argument vector, the path is the single positional argument. *)
Theorem parsed_selector_and_path_are_given (argv : list cli_item) (a : arguments) :
  parse_args argv = Parsed a →
  ∃ s p,
    In (ISelector s) argv ∧ selectors a = one_hot s
    ∧ (∀ s', In (ISelector s') argv → s' = s)
    ∧ In (IPath p) argv ∧ path a = Some p
    ∧ (∀ p', In (IPath p') argv → p' = p).
Proof.
  intros Hp. unfold parse_args in Hp.
  destruct (parse_items_selector_given _ _ _ _ Hp) as [s [Hs|[_ Hs]]]; [done|].
  destruct (parse_items_selectors argv None defaults a) as [s' Hs'];
    [done|exact Hp|].
  destruct (parse_items_in_choices argv None defaults a) as [_ [p Hpath]].
  { unfold namespace_in_choices, defaults. simpl.
    repeat split; [set_solver..|by left]. }
  { exact Hp. }
  assert (Hgiven : ∀ p', In (IPath p') argv → p' = p).
  { intros p' Hin.
    pose proof (parse_items_path_given _ _ _ _ p' Hp eq_refl Hin). congruence. }
  assert (Hsome : ∃ p', In (IPath p') argv).
  { clear -Hp Hpath.
    assert (Hgen : ∀ items seen a0, parse_items items seen a0 = Parsed a →
              path a0 = None → ∃ p', In (IPath p') items).
    { induction items as [|it rest IH]; intros seen a0 Hq Hn; simpl in Hq.
      - destruct seen; [|done]. by rewrite Hn in Hq.
      - destruct it; repeat (case_match; simplify_eq); simplify_eq;
          try (edestruct IH as [p' Hin];
                 [eassumption|first [exact Hn|by rewrite set_selector_path]|];
               exists p'; by right).
        eexists. by left. }
    by eapply Hgen. }
  destruct Hsome as [p' Hin']. rewrite (Hgiven p' Hin') in Hin'.
  assert (Hsel : ∀ s0, In (ISelector s0) argv → s0 = s).
  { intros s0 Hin. by eapply parse_items_one_selector. }
  assert (s' = s) as ->.
  { (* the selector set in the namespace is the one that was given *)
    clear -Hp Hs Hs' Hsel.
    assert (Hgen : ∀ items seen a0, parse_items items seen a0 = Parsed a →
              selectors_agree seen a0 →
              ∀ s0, seen = Some s0 ∨ In (ISelector s0) items →
              (∀ s1, In (ISelector s1) items → s1 = s0) →
              selectors a = one_hot s0).
    { induction items as [|it rest IH]; intros seen a0 Hq Hag s0 Hor Hall;
        simpl in Hq.
      - destruct seen as [s1|]; [|done]. destruct (path a0); [|done].
        simplify_eq. destruct Hor as [[= ->]|[]]. exact Hag.
      - destruct it; repeat (case_match; simplify_eq); simplify_eq;
          try (eapply IH; [eassumption|exact Hag| |];
               [destruct Hor as [Hor|[Heq|Hor]];
                  [by left|discriminate Heq|by right]
               |intros ? ?; apply Hall; by right]).
        + match goal with
          | Hq : parse_items _ (Some ?x) _ = _ |- _ =>
              assert (x = s0) as -> by (apply Hall; by left)
          end.
          eapply (IH (Some s0)); [eassumption| |by left|].
          * unfold selectors_agree, selectors in *.
            destruct s0; injection Hag as H1 H2 H3 H4 H5; simpl; congruence.
          * intros s2 Hs2. apply Hall. by right.
        + match goal with
          | Hq : parse_items _ (Some ?x) _ = _ |- _ =>
              assert (x = s0) as -> by (apply Hall; by left)
          end.
          eapply (IH (Some s0)); [eassumption| |by left|].
          * unfold selectors_agree, selectors in *.
            destruct s0; injection Hag as H1 H2 H3 H4 H5; simpl; congruence.
          * intros s2 Hs2. apply Hall. by right. }
    assert (Hone : selectors a = one_hot s).
    { eapply (Hgen argv None defaults); [exact Hp|done|by right|exact Hsel]. }
    rewrite Hone in Hs'. by destruct s, s'. }
  exists s, p. repeat split; done.
Qed.


End cmd_parser_more.

(* ===================================================================== *)
(** ** The interactive driver: further properties                         *)
(* ===================================================================== *)

Section gui_more.
Import extrapgui.
Context `{W : World}.

Lemma hook_outcome_non_fatal (u : uncaught) :
  fatal u = false →
  outcome (event_loop false [u]) = Ok tt
  ∧ ∀ ev, In ev (trace (event_loop false [u])) → blocks ev = false.
Proof.
  destruct u as [w|e]; simpl; intros Hf.
  - split; [reflexivity|]. intros ev Hin. simpl in Hin.
    repeat (destruct Hin as [<-|Hin]; [done|]). done.
  - apply negb_false_iff in Hf.
    rewrite outcome_bind, trace_bind. rewrite exception_handler_recoverable by done.
    split; [reflexivity|]. intros ev Hin.
    unfold exception_dialog_setup in Hin. simpl in Hin.
    repeat (destruct Hin as [<-|Hin]; [done|]). done.
Qed.

Lemma event_loop_app (test : bool) (pre post : list uncaught) :
  event_loop test (pre ++ post) = (event_loop test pre >> event_loop test post).
Proof.
  induction pre as [|u pre IH]; simpl.
  - by destruct (event_loop test post).
  - destruct u as [w|e]; rewrite IH.
    + destruct (_warnings_handler test w) as [tr [[]|ex]]; simpl; [|done].
      destruct (event_loop test pre) as [tr1 [[]|ex]]; simpl; [|done].
      destruct (event_loop test post) as [tr2 r]. simpl. by rewrite app_assoc.
    + destruct (_exception_handler test e) as [tr [[]|ex]]; simpl; [|done].
      destruct (event_loop test pre) as [tr1 [[]|ex]]; simpl; [|done].
      destruct (event_loop test post) as [tr2 r]. simpl. by rewrite app_assoc.
Qed.

Lemma event_loop_non_fatal (pending : list uncaught) :
  Forall (λ u, fatal u = false) pending →
  outcome (event_loop false pending) = Ok tt
  ∧ ∀ ev, In ev (trace (event_loop false pending)) → blocks ev = false.
Proof.
  induction 1 as [|u rest Hu _ [IHo IHt]].
  - split; [done|]. by intros ev [].
  - change (u :: rest) with ([u] ++ rest). rewrite event_loop_app.
    destruct (hook_outcome_non_fatal u Hu) as [Ho Ht].
    rewrite outcome_bind, trace_bind, Ho. split; [done|].
    intros ev Hin. apply in_app_or in Hin as [Hin|Hin]; auto.
Qed.

(** X17: in test mode neither hook shows a dialog and neither ends the
    process, whatever the warning or exception is: the exception hook only
    prepares the message box and hands the exception, fatal or not, to the
    hook that was installed before. *)
Theorem test_mode_hooks_show_nothing (u : uncaught) :
  outcome (event_loop true [u]) = Ok tt
  ∧ (∀ ev, In ev (trace (event_loop true [u])) → shows_dialog ev = false)
  ∧ match u with
    | Warned w => In (EvOldWarningsHandler w) (trace (event_loop true [u]))
    | Thrown e => In (EvOldExceptionHandler e) (trace (event_loop true [u]))
    end.
Proof.
  destruct u as [w|e]; simpl.
  - split; [reflexivity|]. split.
    + intros ev Hin. simpl in Hin.
      repeat (destruct Hin as [<-|Hin]; [done|]). done.
    + simpl. auto 10.
  - rewrite outcome_bind, !trace_bind, exception_handler_test.
    split; [reflexivity|]. split.
    + intros ev Hin. unfold exception_dialog_setup in Hin. simpl in Hin.
      repeat (destruct Hin as [<-|Hin]; [done|]). done.
    + unfold exception_dialog_setup. simpl. auto 10.
Qed.

(** X18: as long as only warnings and recoverable exceptions reach the hooks,
    the event loop runs to its end, no hook ever waits for a dialog, and
    [main] joins the font thread and returns normally. *)
Theorem session_survives_warnings_and_recoverable_errors
    (argv : list string) (pending : list uncaught) :
  Forall (λ u, fatal u = false) pending →
  outcome (autoload argv) = Ok tt →
  outcome (event_loop false pending) = Ok tt
  ∧ (∀ ev, In ev (trace (event_loop false pending)) → blocks ev = false)
  ∧ outcome (main false argv pending) = Ok ReturnNone
  ∧ In EvThreadJoin (trace (main false argv pending)).
Proof.
  intros Hnf Hload.
  destruct (event_loop_non_fatal pending Hnf) as [Ho Ht].
  split; [done|]. split; [done|].
  rewrite main_unfold, outcome_bind, trace_bind, outcome_pair, trace_pair.
  rewrite outcome_bind, trace_bind, Hload. cbn [negb].
  rewrite outcome_emit_bind, trace_emit_bind, outcome_bind, trace_bind, Ho.
  split; [reflexivity|].
  apply in_or_app. right. apply in_or_app. right. right.
  apply in_or_app. right. simpl. auto.
Qed.

(** X19: the first fatal exception ends the session: what was pending before it
    is handled, the fatal exception gets its blocking dialog, the process
    exits with status 1, nothing pending after it is handled, and [main]
    never reaches the join of the font thread. *)
Theorem first_fatal_exception_ends_session
    (argv : list string) (pre rest : list uncaught) (e : exc_info) :
  Forall (λ u, fatal u = false) pre →
  exc_recoverable e = false →
  event_loop false (pre ++ Thrown e :: rest) =
    (trace (event_loop false pre) ++ trace (_exception_handler false e),
     Raise (SystemExit 1))
  ∧ ¬ In EvThreadJoin (trace (main false argv (pre ++ Thrown e :: rest)))
  ∧ ∀ r, outcome (main false argv (pre ++ Thrown e :: rest)) ≠ Ok r.
Proof.
  intros Hnf Hr.
  destruct (event_loop_non_fatal pre Hnf) as [Ho _].
  assert (Hloop : event_loop false (pre ++ Thrown e :: rest) =
    (trace (event_loop false pre) ++ trace (_exception_handler false e),
     Raise (SystemExit 1))).
  { rewrite event_loop_app.
    destruct (event_loop false pre) as [tr r]. unfold outcome in Ho.
    simpl in Ho. subst r. simpl.
    rewrite (exception_handler_fatal e Hr). reflexivity. }
  split; [exact Hloop|]. split.
  - rewrite main_unfold, trace_bind, outcome_pair, trace_pair. intros Hin.
    apply in_app_or in Hin as [Hin|Hin].
    { revert Hin. apply not_in_startup. auto. }
    rewrite trace_bind in Hin. apply in_app_or in Hin as [Hin|Hin].
    { revert Hin. by apply not_in_autoload. }
    destruct (outcome (autoload argv)) as [[]|]; [|done].
    cbn [negb] in Hin. rewrite trace_emit_bind, trace_bind in Hin.
    destruct Hin as [Hin|Hin]; [done|].
    apply in_app_or in Hin as [Hin|Hin].
    + revert Hin. by apply not_in_event_loop.
    + by rewrite Hloop, outcome_pair in Hin.
  - intros r. rewrite main_unfold, outcome_bind, outcome_pair, outcome_bind.
    destruct (outcome (autoload argv)) as [[]|]; [|done]. cbn [negb].
    by rewrite outcome_emit_bind, outcome_bind, Hloop, outcome_pair.
Qed.

(** X20: the start-up file is looked for in one place only: unless there are
    at least three arguments and the second is one of the three flags,
    nothing is read and nothing is modelled (so [prog --debug --text f]
    loads nothing). *)
Theorem autoload_needs_flag_in_second_place
    (test : bool) (argv : list string) (pending : list uncaught) :
  (length argv < 3)%nat
  ∨ argv_at argv 1 ∉ ["--text"; "--json"; "--extra-p-3"] →
  autoload argv = ret tt
  ∧ ∀ ev, In ev (trace (main test argv pending)) → autoload_event ev = false.
Proof.
  intros Hno.
  assert (Hflag : ∀ flag, flag ∈ ["--text"; "--json"; "--extra-p-3"] →
            startup_flag argv flag = false).
  { intros flag Hin. unfold startup_flag.
    destruct Hno as [Hlen|Hnot].
    - apply andb_false_iff. left. by apply Nat.leb_gt.
    - apply andb_false_iff. right. apply bool_decide_eq_false.
      intros ->. done. }
  assert (Hauto : autoload argv = ret tt).
  { unfold autoload.
    rewrite (Hflag "--text"), (Hflag "--json"), (Hflag "--extra-p-3");
      [done|apply list_elem_of_In; simpl; tauto..]. }
  split; [exact Hauto|].
  intros ev. rewrite main_unfold, trace_bind, outcome_pair, trace_pair.
  rewrite trace_bind, Hauto. intros Hin.
  apply in_app_or in Hin as [Hin|Hin].
  { destruct (autoload_event ev) eqn:Hev; [|done].
    exfalso. revert Hin. apply not_in_startup. auto. }
  unfold ret in Hin. rewrite trace_pair, outcome_pair in Hin.
  cbn [app] in Hin. destruct test; cbn [negb] in Hin.
  - simpl in Hin. destruct Hin as [<-|[]]. done.
  - rewrite trace_emit_bind, trace_bind in Hin.
    destruct Hin as [<-|Hin]; [done|].
    apply in_app_or in Hin as [Hin|Hin].
    + pose proof (event_loop_hook_events false pending) as HF.
      rewrite List.Forall_forall in HF. specialize (HF _ Hin).
      by destruct ev.
    + destruct (outcome (event_loop false pending)); simpl in Hin;
        [destruct Hin as [<-|[]]; done|done].
Qed.

(** X21: when reading or modelling the start-up file raises, the exception
    leaves [main]: the event loop is never entered and the font thread is
    never joined, in test mode as well as outside it. *)
Theorem failed_autoload_leaves_main
    (test : bool) (argv : list string) (pending : list uncaught) (e : exn) :
  outcome (autoload argv) = Raise e →
  outcome (main test argv pending) = Raise e
  ∧ trace (main test argv pending) = startup test argv ++ trace (autoload argv)
  ∧ ¬ In EvAppExec (trace (main test argv pending))
  ∧ ¬ In EvThreadJoin (trace (main test argv pending)).
Proof.
  intros Hload.
  assert (Ht : trace (main test argv pending) =
                 startup test argv ++ trace (autoload argv)).
  { rewrite main_unfold, trace_bind, outcome_pair, trace_pair.
    by rewrite trace_bind, Hload, app_nil_r. }
  split.
  { rewrite main_unfold, outcome_bind, outcome_pair.
    by rewrite outcome_bind, Hload. }
  split; [exact Ht|]. rewrite Ht. split.
  - intros Hin. apply in_app_or in Hin as [Hin|Hin].
    + revert Hin. apply not_in_startup. auto.
    + revert Hin. by apply not_in_autoload.
  - intros Hin. apply in_app_or in Hin as [Hin|Hin].
    + revert Hin. apply not_in_startup. auto.
    + revert Hin. by apply not_in_autoload.
Qed.

End gui_more.

(* ===================================================================== *)
(** ** The further properties on concrete inputs                          *)
(* ===================================================================== *)

Section more_runs.
Import fixtures scenarios.

Lemma cube_needs_directory_witness :
  extrapcmd.stat (World:=cmd_world) "input.txt" = extrapcmd.RegularFile
  ∧ extrapcmd.run (W:=cmd_world) cube_on_file_args =
    ([extrapcmd.EvBasicConfig false "WARNING";
      extrapcmd.EvPbarOpen "Loading file";
      extrapcmd.EvLogError
        "The given path is not valid. It must point to a directory.";
      extrapcmd.EvPbarClose],
     Raise (SystemExit 1)).
Proof.
  split; [reflexivity|].
  exact (cube_needs_directory (W:=cmd_world) cube_on_file_args "input.txt"
           eq_refl eq_refl eq_refl).
Defined.

Lemma logged_error_ends_run_witness :
  In (extrapcmd.EvLogError "The given file path is not valid.")
     (trace (extrapcmd.run (W:=cmd_world) directory_args))
  ∧ outcome (extrapcmd.run (W:=cmd_world) directory_args) = Raise (SystemExit 1).
Proof.
  assert (Hin : In (extrapcmd.EvLogError "The given file path is not valid.")
                   (trace (extrapcmd.run (W:=cmd_world) directory_args))).
  { vm_compute. do 2 right. left. reflexivity. }
  split; [exact Hin|].
  exact (proj1 (logged_error_ends_run (W:=cmd_world) directory_args _ Hin)).
Defined.


Lemma completed_run_shape_witness :
  outcome (extrapcmd.run (W:=cmd_world) saved_args) = Ok tt
  ∧ ∃ r p s m text,
      extrapcmd.path saved_args = Some p
      ∧ extrapcmd.selected_reader saved_args = Some r
      ∧ trace (extrapcmd.run (W:=cmd_world) saved_args) =
          [extrapcmd.EvBasicConfig false "WARNING";
           extrapcmd.EvPbarOpen "Loading file"; extrapcmd.EvRead r p s;
           extrapcmd.EvPbarClose; extrapcmd.EvDebug;
           extrapcmd.EvPbarOpen "Generating models"; extrapcmd.EvModelAll m;
           extrapcmd.EvPbarClose; extrapcmd.EvPrint text;
           extrapcmd.EvSaveOutput text (Some "report.txt")].
Proof.
  assert (Hout : outcome (extrapcmd.run (W:=cmd_world) saved_args) = Ok tt).
  { vm_compute. reflexivity. }
  split; [exact Hout|].
  exact (completed_run_shape (W:=cmd_world) saved_args Hout).
Defined.

Lemma reader_follows_selector_witness :
  In (extrapcmd.EvRead TextReader "input.txt" None)
     (trace (extrapcmd.run (W:=cmd_world) saved_args))
  ∧ extrapcmd.selected_reader saved_args = Some TextReader
  ∧ extrapcmd.stat (World:=cmd_world) "input.txt" = extrapcmd.RegularFile.
Proof.
  assert (Hin : In (extrapcmd.EvRead TextReader "input.txt" None)
                   (trace (extrapcmd.run (W:=cmd_world) saved_args))).
  { vm_compute. do 2 right. left. reflexivity. }
  split; [exact Hin|].
  exact (proj2 (reader_follows_selector (W:=cmd_world) saved_args _ _ _ Hin)).
Defined.

Lemma configure_keeps_the_rest_witness :
  ∃ m', extrapcmd.configure (W:=cmd_world) multi_options (multi_modeler true)
        = Ok m'
        ∧ mod_class m' = "Multi-Parameter"
        ∧ mod_multi m' = true
        ∧ mod_attrs m' !! "use_median" = Some (VAtom (ABool true)).
Proof.
  destruct (extrapcmd.configure (W:=cmd_world) multi_options (multi_modeler true))
    as [m'|ex] eqn:Hcfg; [|vm_compute in Hcfg; discriminate Hcfg].
  exists m'. split; [reflexivity|].
  destruct (configure_keeps_the_rest (W:=cmd_world) multi_options
              (multi_modeler true) m' Hcfg) as (Hc & Hm & Hframe).
  split; [exact Hc|]. split; [exact Hm|].
  rewrite (Hframe "use_median").
  - vm_compute. reflexivity.
  - discriminate.
  - intros v Hv. vm_compute in Hv. injection Hv as <-. reflexivity.
Defined.

Lemma no_options_no_change_witness :
  extrapcmd.modeler_options saved_args = ∅
  ∧ In (extrapcmd.EvModelAll (single_modeler "Default" false))
       (trace (extrapcmd.run (W:=cmd_world) saved_args))
  ∧ ∃ exp, extrapcmd.ModelGenerator (World:=cmd_world) exp "Default" false
           = Ok (single_modeler "Default" false).
Proof.
  assert (Hin : In (extrapcmd.EvModelAll (single_modeler "Default" false))
                   (trace (extrapcmd.run (W:=cmd_world) saved_args))).
  { vm_compute. do 6 right. left. reflexivity. }
  split; [reflexivity|]. split; [exact Hin|].
  exact (no_options_no_change (W:=cmd_world) saved_args _ eq_refl Hin).
Defined.

Lemma model_all_gets_loaded_and_configured_witness :
  ∃ m p exp m0,
    In (extrapcmd.EvModelAll m)
       (trace (extrapcmd.run (W:=cmd_world) unknown_option_args))
    ∧ extrapcmd.path unknown_option_args = Some p
    ∧ outcome (extrapcmd.load (W:=cmd_world) unknown_option_args p) = Ok exp
    ∧ extrapcmd.ModelGenerator (World:=cmd_world) exp "Default" false = Ok m0
    ∧ extrapcmd.configure (W:=cmd_world)
        (extrapcmd.modeler_options unknown_option_args) m0 = Ok m.
Proof.
  assert (Hin : In (extrapcmd.EvModelAll
        (Modeler "Default" false
           {[ "bogus" := VAtom (AInt 1);
              "use_median" := VAtom (ABool false) ]}))
     (trace (extrapcmd.run (W:=cmd_world) unknown_option_args))).
  { vm_compute. do 6 right. left. reflexivity. }
  destruct (model_all_gets_loaded_and_configured (W:=cmd_world)
              unknown_option_args _ Hin) as (p & exp & m0 & H1 & H2 & H3 & H4).
  eexists _, p, exp, m0. split; [exact Hin|]. repeat split; assumption.
Defined.


Lemma missing_reserved_key_raises_witness :
  keyless_options !! "#single_parameter_modeler" = None
  ∧ extrapcmd.configure (W:=cmd_world) keyless_options (multi_modeler false)
    = Raise (KeyError "#single_parameter_modeler").
Proof.
  assert (Hkey : keyless_options !! "#single_parameter_modeler" = None).
  { vm_compute. reflexivity. }
  split; [exact Hkey|].
  apply (missing_reserved_key_raises (W:=cmd_world) keyless_options
           (multi_modeler false) eq_refl).
  - intros He.
    assert (Hl : keyless_options !! "use_median" = Some (VAtom (ABool true))).
    { vm_compute. reflexivity. }
    rewrite He in Hl. rewrite lookup_empty in Hl. discriminate Hl.
  - exact Hkey.
Defined.

Lemma unnamed_nested_modeler_is_kept_witness :
  ∃ m' sub,
    extrapcmd.configure (W:=cmd_world) unnamed_options (multi_modeler false)
    = Ok m'
    ∧ mod_attrs m' !! "single_parameter_modeler" = Some (VInst sub)
    ∧ inst_class sub = "Default"
    ∧ inst_attrs sub !! "poly_exponents" = Some (AStr "1,2")
    ∧ inst_attrs sub !! "allow_log_terms" = Some (ABool true).
Proof.
  destruct (unnamed_nested_modeler_is_kept (W:=cmd_world) unnamed_options
              (multi_modeler false) Default nested_options)
    as (m' & sub & Hcfg & Hsub & Hcls & Hattrs).
  - reflexivity.
  - vm_compute. reflexivity.
  - vm_compute. reflexivity.
  - vm_compute. reflexivity.
  - intros v Hv. vm_compute in Hv. discriminate Hv.
  - exists m', sub. split; [exact Hcfg|]. split; [exact Hsub|].
    split; [exact Hcls|]. split.
    + rewrite Hattrs. vm_compute. reflexivity.
    + rewrite Hattrs. vm_compute. reflexivity.
Defined.

Lemma different_selectors_are_rejected_witness :
  extrapcmd.parse_args (W:=cmd_world)
    [extrapcmd.ISelector extrapcmd.SelText;
     extrapcmd.ISelector extrapcmd.SelJson;
     extrapcmd.IPath "input.txt"] = extrapcmd.ParseError
  ∧ ∀ a, extrapcmd.parse_args (W:=cmd_world)
           [extrapcmd.ISelector extrapcmd.SelText;
            extrapcmd.ISelector extrapcmd.SelJson;
            extrapcmd.IPath "input.txt"] ≠ extrapcmd.Parsed a.
Proof.
  split; [reflexivity|].
  apply (different_selectors_are_rejected (W:=cmd_world) _
           extrapcmd.SelText extrapcmd.SelJson).
  - left. reflexivity.
  - right. left. reflexivity.
  - discriminate.
Defined.

Lemma parsed_namespace_is_in_choices_witness :
  extrapcmd.parse_args (W:=cmd_world)
    [extrapcmd.ILog "debug"; extrapcmd.ISelector extrapcmd.SelText;
     extrapcmd.IPath "input.txt"]
  = extrapcmd.Parsed
      {| extrapcmd.log_level := "DEBUG"; extrapcmd.cube := false;
         extrapcmd.text := true; extrapcmd.talpas := false;
         extrapcmd.json := false; extrapcmd.extrap3 := false;
         extrapcmd.modeler_name := "Default"; extrapcmd.modeler_options := ∅;
         extrapcmd.scaling_type := "weak"; extrapcmd.median := false;
         extrapcmd.out := None; extrapcmd.print_type := "all";
         extrapcmd.path := Some "input.txt" |}
  ∧ extrapcmd.namespace_in_choices (W:=cmd_world)
      {| extrapcmd.log_level := "DEBUG"; extrapcmd.cube := false;
         extrapcmd.text := true; extrapcmd.talpas := false;
         extrapcmd.json := false; extrapcmd.extrap3 := false;
         extrapcmd.modeler_name := "Default"; extrapcmd.modeler_options := ∅;
         extrapcmd.scaling_type := "weak"; extrapcmd.median := false;
         extrapcmd.out := None; extrapcmd.print_type := "all";
         extrapcmd.path := Some "input.txt" |}.
Proof.
  assert (Hp : extrapcmd.parse_args (W:=cmd_world)
    [extrapcmd.ILog "debug"; extrapcmd.ISelector extrapcmd.SelText;
     extrapcmd.IPath "input.txt"]
  = extrapcmd.Parsed
      {| extrapcmd.log_level := "DEBUG"; extrapcmd.cube := false;
         extrapcmd.text := true; extrapcmd.talpas := false;
         extrapcmd.json := false; extrapcmd.extrap3 := false;
         extrapcmd.modeler_name := "Default"; extrapcmd.modeler_options := ∅;
         extrapcmd.scaling_type := "weak"; extrapcmd.median := false;
         extrapcmd.out := None; extrapcmd.print_type := "all";
         extrapcmd.path := Some "input.txt" |}).
  { vm_compute. reflexivity. }
  split; [exact Hp|].
  exact (proj1 (parsed_namespace_is_in_choices (W:=cmd_world) _ _ Hp)).
Defined.

Lemma parsed_selector_and_path_are_given_witness :
  ∃ a s p,
    extrapcmd.parse_args (W:=cmd_world)
      [extrapcmd.IOut "report.txt"; extrapcmd.IPath "input.txt";
       extrapcmd.ISelector extrapcmd.SelTalpas] = extrapcmd.Parsed a
    ∧ extrapcmd.selectors a = extrapcmd.one_hot s
    ∧ extrapcmd.path a = Some p
    ∧ In (extrapcmd.ISelector s)
         [extrapcmd.IOut "report.txt"; extrapcmd.IPath "input.txt";
          extrapcmd.ISelector extrapcmd.SelTalpas]
    ∧ In (extrapcmd.IPath p)
         [extrapcmd.IOut "report.txt"; extrapcmd.IPath "input.txt";
          extrapcmd.ISelector extrapcmd.SelTalpas].
Proof.
  destruct (extrapcmd.parse_args (W:=cmd_world)
      [extrapcmd.IOut "report.txt"; extrapcmd.IPath "input.txt";
       extrapcmd.ISelector extrapcmd.SelTalpas]) as [a| |] eqn:Hp;
    [|vm_compute in Hp; discriminate Hp..].
  destruct (parsed_selector_and_path_are_given (W:=cmd_world) _ a Hp)
    as (s & p & Hs & Hone & _ & Hin & Hpath & _).
  exists a, s, p. repeat split; assumption.
Defined.

Lemma session_survives_warnings_and_recoverable_errors_witness :
  outcome (extrapgui.main (W:=gui_world) false ["extrapgui.py"]
             [extrapgui.Warned "slow"; extrapgui.Thrown recoverable_exc])
  = Ok extrapgui.ReturnNone
  ∧ In extrapgui.EvThreadJoin
       (trace (extrapgui.main (W:=gui_world) false ["extrapgui.py"]
                 [extrapgui.Warned "slow"; extrapgui.Thrown recoverable_exc])).
Proof.
  destruct (session_survives_warnings_and_recoverable_errors (W:=gui_world)
              ["extrapgui.py"]
              [extrapgui.Warned "slow"; extrapgui.Thrown recoverable_exc])
    as (_ & _ & Ho & Hj).
  - repeat constructor.
  - reflexivity.
  - split; [exact Ho|exact Hj].
Defined.

Lemma first_fatal_exception_ends_session_witness :
  extrapgui.exc_recoverable fatal_exc = false
  ∧ outcome (extrapgui.event_loop (W:=gui_world) false
               ([extrapgui.Warned "slow"] ++
                extrapgui.Thrown fatal_exc ::
                [extrapgui.Thrown recoverable_exc]))
    = Raise (SystemExit 1)
  ∧ ¬ In extrapgui.EvThreadJoin
        (trace (extrapgui.main (W:=gui_world) false ["extrapgui.py"]
                  ([extrapgui.Warned "slow"] ++
                   extrapgui.Thrown fatal_exc ::
                   [extrapgui.Thrown recoverable_exc]))).
Proof.
  split; [reflexivity|].
  destruct (first_fatal_exception_ends_session (W:=gui_world) ["extrapgui.py"]
              [extrapgui.Warned "slow"] [extrapgui.Thrown recoverable_exc]
              fatal_exc) as (Hl & Hj & _).
  - repeat constructor.
  - reflexivity.
  - split; [by rewrite Hl|exact Hj].
Defined.

Lemma autoload_needs_flag_in_second_place_witness :
  extrapgui.argv_at ["extrapgui.py"; "--debug"; "--text"; "input.txt"] 1
  = "--debug"
  ∧ extrapgui.autoload (W:=gui_world)
      ["extrapgui.py"; "--debug"; "--text"; "input.txt"] = ret tt.
Proof.
  split; [reflexivity|].
  refine (proj1 (autoload_needs_flag_in_second_place (W:=gui_world) false
                   ["extrapgui.py"; "--debug"; "--text"; "input.txt"] [] _)).
  right. intros Hin. apply list_elem_of_In in Hin. simpl in Hin.
  destruct Hin as [Hin|[Hin|[Hin|[]]]]; discriminate Hin.
Defined.

Lemma failed_autoload_leaves_main_witness :
  outcome (extrapgui.autoload (W:=failing_gui_world)
             ["extrapgui.py"; "--text"; "broken.txt"])
  = Raise (OtherError "FileFormatError")
  ∧ outcome (extrapgui.main (W:=failing_gui_world) false
               ["extrapgui.py"; "--text"; "broken.txt"] [])
    = Raise (OtherError "FileFormatError")
  ∧ ¬ In extrapgui.EvThreadJoin
        (trace (extrapgui.main (W:=failing_gui_world) false
                  ["extrapgui.py"; "--text"; "broken.txt"] [])).
Proof.
  split; [reflexivity|].
  destruct (failed_autoload_leaves_main (W:=failing_gui_world) false
              ["extrapgui.py"; "--text"; "broken.txt"] []
              (OtherError "FileFormatError") eq_refl) as (Ho & _ & _ & Hj).
  split; [exact Ho|exact Hj].
Defined.

End more_runs.
